(** * Invoice-processing workflow: stage graph, checkpoint/resume protocol
      and two-way match scoring

    A shallow embedding of the Python sources under [src/]:
    - [src/mcp/abilities.py], [src/mcp/client.py]  (abilities and their router)
    - [src/bigtool/tools.py], [src/bigtool/picker.py]  (backend selection)
    - [src/database/models.py]  (persisted rows)
    - [src/nodes/*.py]  (stage functions)
    - [src/graph/workflow.py]  (graph, start and resume)

    Conventions.
    - Python values are an untyped JSON-like universe [value]; a [dict] is a
      finite map from strings.  Operations that raise in Python on a value of
      the wrong shape raise here as well ([result]).
    - Python floats are modelled as exact rationals [Q].
    - [uuid.uuid4()], [datetime.utcnow()], [os.getenv] and [str()] are
      parameters of the development (section variables); every draw of a
      uuid or of the clock advances a counter in the [World].
    - Logging is not modelled, except for the sequence of stage banners,
      kept as [trace]. *)

From Stdlib Require Import ZArith QArith Qabs Qminmax Qround String Ascii List Bool Lia.
From stdpp Require Import base option list gmap strings fin_maps.

Set Warnings "-register-all".
Local Open Scope string_scope.

(** ** Python values *)

Inductive value : Type :=
  | VNone
  | VBool (b : bool)
  | VNum (q : Q)
  | VStr (s : string)
  | VList (l : list value)
  | VDict (d : gmap string value).

Abbreviation dict := (gmap string value).

Inductive exn : Type :=
  | AttributeError
  | TypeError
  | ValueError
  | KeyError (k : string)
  | ZeroDivisionError
  | IntegrityError
  | GraphRecursionError.

Inductive result (A : Type) : Type :=
  | Ok (a : A)
  | Raise (e : exn).
Arguments Ok {A} a.
Arguments Raise {A} e.

Definition rbind {A B} (r : result A) (k : A -> result B) : result B :=
  match r with
  | Ok a => k a
  | Raise e => Raise e
  end.

Notation "x <~ r ;; k" := (rbind r (fun x => k))
  (at level 100, r at next level, right associativity).

(** [bool(v)] *)
Definition truthy (v : value) : bool :=
  match v with
  | VNone => false
  | VBool b => b
  | VNum q => negb (Qeq_bool q 0)
  | VStr s => negb (String.eqb s "")
  | VList l => match l with [] => false | _ :: _ => true end
  | VDict d => negb (Nat.eqb (size d) 0)
  end.

(** [v == s] for a string literal [s] *)
Definition eq_str (v : value) (s : string) : bool :=
  match v with
  | VStr s' => String.eqb s' s
  | _ => false
  end.

(** A Python number: [int], [float] or [bool]. *)
Definition as_num (v : value) : result Q :=
  match v with
  | VNum q => Ok q
  | VBool true => Ok 1%Q
  | VBool false => Ok 0%Q
  | _ => Raise TypeError
  end.

(** [v == 0] *)
Definition eq_zero (v : value) : bool :=
  match v with
  | VNum q => Qeq_bool q 0
  | VBool b => negb b
  | _ => false
  end.

(** [d.get(k, dflt)] where [d] is a dict object. *)
Definition dget (k : string) (dflt : value) (d : dict) : value :=
  default dflt (d !! k).

(** [v.get(k, dflt)] on an arbitrary value: only a dict has [get]. *)
Definition vget (v : value) (k : string) (dflt : value) : result value :=
  match v with
  | VDict d => Ok (dget k dflt d)
  | _ => Raise AttributeError
  end.

(** [len(v)] *)
Definition py_len (v : value) : result nat :=
  match v with
  | VStr s => Ok (String.length s)
  | VList l => Ok (List.length l)
  | VDict d => Ok (size d)
  | _ => Raise TypeError
  end.

(** [for x in v]: the elements visited.  A dict iterates over its keys and a
    string over its characters. *)
Definition py_iter (v : value) : result (list value) :=
  match v with
  | VList l => Ok l
  | VDict d => Ok (map (fun kv => VStr (fst kv)) (map_to_list d))
  | VStr s => Ok (map (fun c => VStr (String c EmptyString)) (list_ascii_of_string s))
  | _ => Raise TypeError
  end.

(** ** Rounding and formatting of numbers *)

(** Round half to even, as [round] and the [f] format do. *)
Definition round_half_even (q : Q) : Z :=
  let fl := Qfloor q in
  let frac := (q - inject_Z fl)%Q in
  if negb (Qle_bool (1 # 2) frac) then fl
  else if negb (Qle_bool frac (1 # 2)) then (fl + 1)%Z
  else if Z.even fl then fl else (fl + 1)%Z.

(** [round(q, 3)] *)
Definition round3 (q : Q) : Q := Qmake (round_half_even (q * 1000)) 1000.

Definition digit_char (n : nat) : ascii := ascii_of_nat (48 + n).

Fixpoint nat_digits (fuel n : nat) (acc : string) : string :=
  match fuel with
  | O => acc
  | S fuel' =>
      let acc' := String (digit_char (n mod 10)) acc in
      if Nat.ltb n 10 then acc' else nat_digits fuel' (n / 10) acc'
  end.

Definition nat_to_string (n : nat) : string := nat_digits (S n) n "".

(** [f"{q:.3f}"] *)
Definition format_3f_Q (q : Q) : string :=
  let m := round_half_even (q * 1000) in
  let a := Z.abs_nat m in
  let frac := nat_to_string (a mod 1000) in
  let pad := match String.length frac with
             | 1 => "00" | 2 => "0" | _ => ""
             end in
  (if (m <? 0)%Z then "-" else "") ++ nat_to_string (a / 1000) ++ "." ++ pad ++ frac.

(** [f"{v:.3f}"]: numbers format, [None] and containers raise [TypeError],
    a string raises [ValueError]. *)
Definition format_3f (v : value) : result string :=
  match v with
  | VNum q => Ok (format_3f_Q q)
  | VBool b => Ok (format_3f_Q (if b then 1 else 0))
  | VStr _ => Raise ValueError
  | _ => Raise TypeError
  end.

(** [s.upper()] and [s.lower()] on ASCII letters *)
Definition upper_ascii (c : ascii) : ascii :=
  let n := nat_of_ascii c in
  if andb (Nat.leb 97 n) (Nat.leb n 122) then ascii_of_nat (n - 32) else c.

Definition lower_ascii (c : ascii) : ascii :=
  let n := nat_of_ascii c in
  if andb (Nat.leb 65 n) (Nat.leb n 90) then ascii_of_nat (n + 32) else c.

Fixpoint smap (f : ascii -> ascii) (s : string) : string :=
  match s with
  | EmptyString => EmptyString
  | String c s' => String (f c) (smap f s')
  end.

Definition upper (s : string) : string := smap upper_ascii s.
Definition lower (s : string) : string := smap lower_ascii s.

(** [sub in s] *)
Fixpoint contains (sub s : string) : bool :=
  if String.prefix sub s then true
  else match s with
       | EmptyString => false
       | String _ s' => contains sub s'
       end.

(** [h[:8].upper()] *)
Definition hex8 (h : string) : string := upper (String.substring 0 8 h).
Definition hex6 (h : string) : string := upper (String.substring 0 6 h).

(** ** Two-way match scoring: [CommonAbilities.compute_match_score] *)

(** [a / b] *)
Definition py_div (a b : Q) : result Q :=
  if Qeq_bool b 0 then Raise ZeroDivisionError else Ok (a / b)%Q.

(** [max(a, b)] *)
Definition py_max (a b : Q) : Q := if Qle_bool b a then a else b.

(** One iteration of [for po in pos]; [acc] is [(best_score, best_match)]. *)
Definition match_step (invoice invoice_amount : value)
    (acc : Q * option value) (po : value) : result (Q * option value) :=
  po_amount <~ vget po "amount" (VNum 0) ;;
  if eq_zero po_amount then Ok acc
  else
    a <~ as_num invoice_amount ;;
    p <~ as_num po_amount ;;
    ratio <~ py_div (Qabs (a - p)) p ;;
    let diff_pct := (ratio * 100)%Q in
    let amount_score := py_max 0 (1 - diff_pct / 100)%Q in
    li <~ vget invoice "line_items" VNone ;;
    let line_score := (if truthy li then 0.8 else 0.5)%Q in
    let score := (amount_score * 0.6 + line_score * 0.4)%Q in
    if negb (Qle_bool score (fst acc)) then Ok (score, Some po) else Ok acc.

Fixpoint match_loop (invoice invoice_amount : value) (pos : list value)
    (acc : Q * option value) : result (Q * option value) :=
  match pos with
  | [] => Ok acc
  | po :: rest =>
      acc' <~ match_step invoice invoice_amount acc po ;;
      match_loop invoice invoice_amount rest acc'
  end.

(** [best_match.get(k) if best_match else None] *)
Definition best_get (best_match : option value) (k : string) : result value :=
  match best_match with
  | Some po => if truthy po then vget po k VNone else Ok VNone
  | None => Ok VNone
  end.

Definition compute_match_score (params : dict) : result dict :=
  let invoice := dget "invoice" (VDict ∅) params in
  let pos := dget "matched_pos" (VList []) params in
  let threshold := dget "threshold" (VNum 0.90) params in
  let tolerance_pct := dget "tolerance_pct" (VNum 5) params in
  if negb (truthy pos) then
    Ok (<["match_score" := VNum 0]>
        (<["match_result" := VStr "FAILED"]>
        (<["tolerance_pct" := tolerance_pct]>
        (<["match_evidence" :=
            VDict (<["reason" := VStr "No POs found to match"]> ∅)]> ∅))))
  else
    invoice_amount <~ vget invoice "amount" (VNum 0) ;;
    items <~ py_iter pos ;;
    best <~ match_loop invoice invoice_amount items (0%Q, None) ;;
    let best_score := fst best in
    let best_match := snd best in
    thr <~ as_num threshold ;;
    let match_result := if Qle_bool thr best_score then "MATCHED" else "FAILED" in
    best_po <~ best_get best_match "po_number" ;;
    po_amount <~ best_get best_match "amount" ;;
    Ok (<["match_score" := VNum (round3 best_score)]>
        (<["match_result" := VStr match_result]>
        (<["tolerance_pct" := tolerance_pct]>
        (<["match_evidence" :=
            VDict (<["best_po" := best_po]>
                  (<["invoice_amount" := invoice_amount]>
                  (<["po_amount" := po_amount]>
                  (<["threshold_used" := threshold]> ∅))))]> ∅)))).

(** ** Persisted rows: [src/database/models.py]

    Columns filled in by ORM defaults ([created_at], [started_at],
    [updated_at]) are omitted. *)

Record CheckpointModel : Type := mkCheckpoint {
  checkpoint_id : string;          (* primary key *)
  cp_workflow_id : value;
  cp_invoice_id : value;
  cp_vendor_name : value;
  cp_amount : value;
  state_blob : dict;
  reason_for_hold : value;
  review_url : value;
  status : string;                 (* PENDING, ACCEPTED, REJECTED *)
  reviewer_id : value;             (* nullable *)
  reviewer_notes : value;          (* nullable *)
  decision_at : option string      (* nullable *)
}.

Record WorkflowStateModel : Type := mkWorkflowState {
  ws_current_stage : string;
  ws_status : string;
  ws_state_data : dict;
  ws_completed_at : option string
}.

Record InvoiceModel : Type := mkInvoice {
  inv_id : string;
  inv_workflow_id : string;
  inv_invoice_id : value;
  inv_vendor_name : value;
  inv_vendor_tax_id : value;
  inv_amount : value;
  inv_currency : value;
  inv_status : string;
  inv_raw_payload : dict
}.

Record AuditLogModel : Type := mkAudit {
  audit_id : string;
  audit_workflow_id : value;
  audit_stage : string;
  audit_action : string;
  audit_details : dict;
  audit_timestamp : string
}.

(** ** The world a workflow runs in

    [checkpoints] and [workflow_states] are keyed by their primary key, and
    adding a row under an existing key raises.  The random primary keys of
    [invoices] and [audit_logs] are not checked for collisions.
    [running_workflows] is [InvoiceProcessingGraph._running_workflows];
    [ticks] counts the uuid and clock draws made so far; [trace] lists the
    stages entered, oldest first. *)

Record World : Type := mkWorld {
  checkpoints : gmap string CheckpointModel;
  workflow_states : gmap string WorkflowStateModel;
  invoices : list InvoiceModel;
  audit_logs : list AuditLogModel;
  running_workflows : gmap string dict;
  ticks : nat;
  trace : list string
}.

Definition set_checkpoints (c : gmap string CheckpointModel) (w : World) : World :=
  mkWorld c (workflow_states w) (invoices w) (audit_logs w)
          (running_workflows w) (ticks w) (trace w).
Definition set_workflow_states (s : gmap string WorkflowStateModel) (w : World) : World :=
  mkWorld (checkpoints w) s (invoices w) (audit_logs w)
          (running_workflows w) (ticks w) (trace w).
Definition set_invoices (i : list InvoiceModel) (w : World) : World :=
  mkWorld (checkpoints w) (workflow_states w) i (audit_logs w)
          (running_workflows w) (ticks w) (trace w).
Definition set_audit_logs (a : list AuditLogModel) (w : World) : World :=
  mkWorld (checkpoints w) (workflow_states w) (invoices w) a
          (running_workflows w) (ticks w) (trace w).
Definition set_running_workflows (r : gmap string dict) (w : World) : World :=
  mkWorld (checkpoints w) (workflow_states w) (invoices w) (audit_logs w)
          r (ticks w) (trace w).
Definition set_ticks (n : nat) (w : World) : World :=
  mkWorld (checkpoints w) (workflow_states w) (invoices w) (audit_logs w)
          (running_workflows w) n (trace w).
Definition set_trace (t : list string) (w : World) : World :=
  mkWorld (checkpoints w) (workflow_states w) (invoices w) (audit_logs w)
          (running_workflows w) (ticks w) t.

(** ** Effectful computations: world passing with exceptions *)

Definition M (A : Type) : Type := World -> result A * World.

Definition ret {A} (a : A) : M A := fun w => (Ok a, w).
Definition raise {A} (e : exn) : M A := fun w => (Raise e, w).
Definition lift {A} (r : result A) : M A := fun w => (r, w).
Definition bind {A B} (m : M A) (k : A -> M B) : M B :=
  fun w => match m w with
           | (Ok a, w') => k a w'
           | (Raise e, w') => (Raise e, w')
           end.
Definition get_world : M World := fun w => (Ok w, w).
Definition modify (f : World -> World) : M unit := fun w => (Ok tt, f w).

(** [try: m except Exception as e: h e] *)
Definition try_except {A} (m : M A) (h : exn -> M A) : M A :=
  fun w => match m w with
           | (Ok a, w') => (Ok a, w')
           | (Raise e, w') => h e w'
           end.

Notation "x <- m ;; k" := (bind m (fun x => k))
  (at level 100, m at next level, right associativity).

(** A stage function: state in, partial update out. *)
Abbreviation Node := (dict -> M dict).

(** ** Backend selection: [src/bigtool] *)

Record Tool : Type := mkTool {
  name : string;
  capability : string;
  description : string;
  priority : nat;
  available : bool
}.

(** [ToolPool.__init__]; [available] defaults to [True] and nothing in the
    sources changes it. *)
Definition pools (cap : string) : list Tool :=
  if String.eqb cap "ocr" then
    [ mkTool "google_vision" "ocr" "Google Cloud Vision OCR" 3 true;
      mkTool "tesseract" "ocr" "Open source Tesseract OCR" 2 true;
      mkTool "aws_textract" "ocr" "AWS Textract OCR" 3 true ]
  else if String.eqb cap "enrichment" then
    [ mkTool "clearbit" "enrichment" "Clearbit company enrichment" 3 true;
      mkTool "people_data_labs" "enrichment" "PDL enrichment service" 2 true;
      mkTool "vendor_db" "enrichment" "Internal vendor database" 1 true ]
  else if String.eqb cap "erp_connector" then
    [ mkTool "sap_sandbox" "erp_connector" "SAP sandbox connector" 3 true;
      mkTool "netsuite" "erp_connector" "NetSuite connector" 2 true;
      mkTool "mock_erp" "erp_connector" "Mock ERP for testing" 1 true ]
  else if String.eqb cap "db" then
    [ mkTool "postgres" "db" "PostgreSQL database" 3 true;
      mkTool "sqlite" "db" "SQLite database" 1 true;
      mkTool "dynamodb" "db" "AWS DynamoDB" 2 true ]
  else if String.eqb cap "email" then
    [ mkTool "sendgrid" "email" "SendGrid email service" 3 true;
      mkTool "smartlead" "email" "Smartlead email service" 2 true;
      mkTool "ses" "email" "AWS SES email service" 2 true ]
  else if String.eqb cap "storage" then
    [ mkTool "s3" "storage" "AWS S3 storage" 3 true;
      mkTool "gcs" "storage" "Google Cloud Storage" 3 true;
      mkTool "local_fs" "storage" "Local filesystem" 1 true ]
  else [].

Definition get_available_tools (cap : string) : list Tool :=
  List.filter available (pools cap).

(** [for t in tools: if t.name == n: return t] *)
Definition find_tool (n : string) (tools : list Tool) : option Tool :=
  List.find (fun t => String.eqb (name t) n) tools.

(** [max(tools, key=lambda t: t.priority)]: the first tool of highest priority. *)
Fixpoint max_priority (best : Tool) (tools : list Tool) : Tool :=
  match tools with
  | [] => best
  | t :: rest =>
      max_priority (if Nat.ltb (priority best) (priority t) then t else best) rest
  end.

(** [any(".pdf" in a.lower() for a in attachments)], left to right and
    stopping at the first hit. *)
Fixpoint any_pdf (l : list value) : result bool :=
  match l with
  | [] => Ok false
  | VStr a :: rest => if contains ".pdf" (lower a) then Ok true else any_pdf rest
  | _ :: _ => Raise AttributeError
  end.

Definition _select_by_context (cap : string) (tools : list Tool) (context : dict)
    : result (option Tool) :=
  r_ocr <~ (if String.eqb cap "ocr" then
              atts <~ py_iter (dget "attachments" (VList []) context) ;;
              hit <~ any_pdf atts ;;
              Ok (if hit then find_tool "aws_textract" tools else None)
            else Ok None) ;;
  match r_ocr with
  | Some t => Ok (Some t)
  | None =>
    r_enr <~ (if String.eqb cap "enrichment" then
                let tax := dget "vendor_tax_id" (VStr "") context in
                if truthy tax then
                  n <~ py_len tax ;;
                  Ok (if orb (Nat.eqb n 10) (Nat.eqb n 15)
                      then find_tool "vendor_db" tools else None)
                else Ok None
              else Ok None) ;;
    match r_enr with
    | Some t => Ok (Some t)
    | None =>
      if String.eqb cap "erp_connector" then
        amount <~ as_num (dget "amount" (VNum 0) context) ;;
        Ok (if negb (Qle_bool amount 100000)
            then find_tool "sap_sandbox" tools else None)
      else Ok None
    end
  end.

(** ** Stage graphs: the part of [StateGraph] the sources use *)

Inductive target : Type :=
  | ToNode (n : string)
  | END.

(** [add_edge(src, t)] and [add_conditional_edges(src, path, path_map)] *)
Inductive outgoing : Type :=
  | Edge (t : target)
  | ConditionalEdges (path : dict -> string) (path_map : list (string * target)).

Record StateGraph : Type := mkGraph {
  nodes : list (string * Node);
  entry_point : string;
  edges : list (string * outgoing)
}.

Definition assoc {A} (k : string) (l : list (string * A)) : option A :=
  match List.find (fun p => String.eqb (fst p) k) l with
  | Some p => Some (snd p)
  | None => None
  end.

(** The merge of a stage's partial update into the state.
    [StateGraph(InvoiceState)]: [InvoiceState] is a plain [TypedDict] whose
    fields carry no reducer annotation, so every field is a last-value
    channel: a key returned by a stage replaces the stored value, and keys
    the stage did not return are kept. *)
Definition apply_update (state update : dict) : dict := update ∪ state.

(** The node that follows [current], read off the merged state. *)
Definition next_target (g : StateGraph) (current : string) (state : dict)
    : result target :=
  match assoc current (edges g) with
  | None => Ok END
  | Some (Edge t) => Ok t
  | Some (ConditionalEdges path path_map) =>
      match assoc (path state) path_map with
      | Some t => Ok t
      | None => Raise (KeyError (path state))
      end
  end.

(** The stage loop of a compiled graph: run the current stage, merge its
    update, follow the outgoing edge; [fuel] is the step budget, and running
    out of it before reaching [END] raises. *)
Fixpoint run (g : StateGraph) (fuel : nat) (current : string) (state : dict) : M dict :=
  match fuel with
  | O => raise GraphRecursionError
  | S fuel' =>
      match assoc current (nodes g) with
      | None => raise (KeyError current)
      | Some stage =>
          _ <- modify (fun w => set_trace (trace w ++ [current]) w) ;;
          update <- stage state ;;
          let state' := apply_update state update in
          match next_target g current state' with
          | Raise e => raise e
          | Ok END => ret state'
          | Ok (ToNode n) => run g fuel' n state'
          end
      end
  end.

(** [compiled.ainvoke(input)] under a step budget of [limit]. *)
Definition ainvoke (g : StateGraph) (limit : nat) (input : dict) : M dict :=
  run g limit (entry_point g) input.

(** *** Branch predicates: [src/graph/workflow.py] *)

Definition should_checkpoint (state : dict) : string :=
  let match_result := dget "match_result" (VStr "") state in
  if eq_str match_result "FAILED" then "checkpoint_hitl" else "reconcile".

Definition should_continue_after_hitl (state : dict) : string :=
  let human_decision := dget "human_decision" (VStr "") state in
  if eq_str human_decision "ACCEPT" then "reconcile" else "complete".

(** A dict display [{k1: v1, ...}] with distinct keys. *)
Definition dict_of (l : list (string * value)) : dict := list_to_map l.

(** The field [k] of a returned dict; [None] when the call raised. *)
Definition field_of (r : result dict) (k : string) : option value :=
  match r with
  | Ok d => d !! k
  | Raise _ => None
  end.

(** [v[k] = x] *)
Definition set_item (v : value) (k : string) (x : value) : result value :=
  match v with
  | VDict d => Ok (VDict (<[k := x]> d))
  | _ => Raise TypeError
  end.

(** [v + [x]] *)
Definition list_append (v : value) (x : value) : result value :=
  match v with
  | VList l => Ok (VList (l ++ [x]))
  | _ => Raise TypeError
  end.

(** [WorkflowStatus] *)
Definition PENDING : string := "PENDING".
Definition RUNNING : string := "RUNNING".
Definition PAUSED : string := "PAUSED".
Definition COMPLETED : string := "COMPLETED".
Definition FAILED : string := "FAILED".
Definition MANUAL_HANDOFF : string := "MANUAL_HANDOFF".

(** [MCPResponse]; [server] and [ability] only label the call. *)
Record MCPResponse : Type := mkResponse {
  success : bool;
  data : dict;
  error : option exn
}.

Section Workflow.

(** *** Parameters: the environment of the process *)

(** [uuid.uuid4().hex] at the n-th draw. *)
Variable uuid4_hex : nat -> string.
(** [datetime.utcnow()] (and its [isoformat()]) at the n-th draw. *)
Variable utcnow_iso : nat -> string.
(** [os.getenv(name)]: [None] when the variable is unset. *)
Variable getenv : string -> option string.
(** [float(os.getenv(name))] for a variable that is set: [None] when the
    text is not a number ([ValueError]). *)
Variable getenv_float : string -> option (option Q).
(** [str(v)] for a value that is not itself a string. *)
Variable py_str : value -> string.
(** [str(e)] for an exception. *)
Variable exn_str : exn -> string.
(** The step budget of a compiled graph.  Both graphs are compiled and
    invoked without a configuration, so the graph library applies its own
    limit, the same for every graph. *)
Variable recursion_limit : nat.

(** The four stages before matching (validation, OCR, enrichment, ERP
    lookups) touch no table: each is an arbitrary function of the state and
    of the draw counter. *)
Variables intake_stage understand_stage prepare_stage retrieve_stage :
  dict -> nat -> result dict * nat.

(** [f"{v}"] *)
Definition fstr (v : value) : string :=
  match v with
  | VStr s => s
  | _ => py_str v
  end.

Definition uuid4 : M string :=
  fun w => (Ok (uuid4_hex (ticks w)), set_ticks (S (ticks w)) w).

Definition utcnow : M string :=
  fun w => (Ok (utcnow_iso (ticks w)), set_ticks (S (ticks w)) w).

(** [float(os.getenv(name, dflt))] where [dflt] reads as [q]. *)
Definition env_float (name : string) (q : Q) : result Q :=
  match getenv_float name with
  | None => Ok q
  | Some (Some x) => Ok x
  | Some None => Raise ValueError
  end.

(** *** [BigtoolPicker] *)

(** [self.defaults] *)
Definition defaults (cap : string) : option string :=
  if String.eqb cap "ocr" then Some (default "tesseract" (getenv "DEFAULT_OCR_TOOL"))
  else if String.eqb cap "enrichment" then Some (default "vendor_db" (getenv "DEFAULT_ENRICHMENT_TOOL"))
  else if String.eqb cap "erp_connector" then Some (default "mock_erp" (getenv "DEFAULT_ERP_TOOL"))
  else if String.eqb cap "db" then Some (default "sqlite" (getenv "DEFAULT_DB_TOOL"))
  else if String.eqb cap "email" then Some (default "ses" (getenv "DEFAULT_EMAIL_TOOL"))
  else if String.eqb cap "storage" then Some (default "local_fs" (getenv "DEFAULT_STORAGE_TOOL"))
  else None.

(** [BigtoolPicker.select]; [None] is the null selection. *)
Definition select (cap : string) (context : dict) (pool_hint : list string)
    (prefer : option string) : result (option Tool) :=
  let available_tools := get_available_tools cap in
  match available_tools with
  | [] => Ok None
  | _ :: _ =>
    let available_tools :=
      match pool_hint with
      | [] => available_tools
      | _ :: _ =>
          List.filter (fun t => existsb (String.eqb (name t)) pool_hint) available_tools
      end in
    match available_tools with
    | [] => Ok None
    | t0 :: rest =>
      let selected :=
        match prefer with
        | Some p => if negb (String.eqb p "") then find_tool p available_tools else None
        | None => None
        end in
      let selected :=
        match selected, defaults cap with
        | None, Some default_name => find_tool default_name available_tools
        | _, _ => selected
        end in
      selected <~ match selected with
                  | None =>
                      if negb (Nat.eqb (size context) 0)
                      then _select_by_context cap available_tools context
                      else Ok None
                  | Some t => Ok (Some t)
                  end ;;
      match selected with
      | None => Ok (Some (max_priority t0 rest))
      | Some t => Ok (Some t)
      end
    end
  end.

(** [tool.name], where [tool] may be the null selection. *)
Definition tool_name (t : option Tool) : result string :=
  match t with
  | Some t => Ok (name t)
  | None => Raise AttributeError
  end.

(** *** [MCPClient.execute_ability]

    The server tag and the ability name pick the function out of the tables
    of [CommonAbilities.execute] and [AtlasAbilities.execute]; every call
    site passes literal names, so the function is passed directly.  An
    exception of the ability becomes an unsuccessful response with empty
    data. *)
Definition execute_ability (ability : dict -> M dict) (params : dict) : M MCPResponse :=
  try_except
    (r <- ability params ;; ret (mkResponse true r None))
    (fun e => ret (mkResponse false ∅ (Some e))).

(** *** Abilities called by the modelled stages: [src/mcp/abilities.py] *)

Definition create_checkpoint (params : dict) : M dict :=
  u <- uuid4 ;;
  let checkpoint_id := "CHKPT-" ++ hex8 u in
  now <- utcnow ;;
  ret (dict_of
    [ ("checkpoint_id", VStr checkpoint_id);
      ("review_url", VStr ("/human-review/" ++ checkpoint_id));
      ("paused_reason", dget "reason" (VStr "Match score below threshold") params);
      ("created_at", VStr now) ]).

Definition build_accounting_entries (params : dict) : M dict :=
  let invoice := dget "invoice" (VDict ∅) params in
  amount <- lift (vget invoice "amount" (VNum 0)) ;;
  let vendor := dget "vendor_name" (VStr "Unknown Vendor") params in
  u1 <- uuid4 ;;
  u2 <- uuid4 ;;
  let entries := VList
    [ VDict (dict_of
        [ ("entry_id", VStr ("JE-" ++ hex6 u1));
          ("account_code", VStr "2100");
          ("account_name", VStr "Accounts Payable");
          ("debit", VNum 0);
          ("credit", amount);
          ("description", VStr ("AP for invoice from " ++ fstr vendor)) ]);
      VDict (dict_of
        [ ("entry_id", VStr ("JE-" ++ hex6 u2));
          ("account_code", VStr "5000");
          ("account_name", VStr "Expense");
          ("debit", amount);
          ("credit", VNum 0);
          ("description", VStr ("Expense for invoice from " ++ fstr vendor)) ]) ] in
  ret (dict_of
    [ ("accounting_entries", entries);
      ("total_debit", amount);
      ("total_credit", amount);
      ("balanced", VBool true) ]).

Definition finalize_workflow (params : dict) : M dict :=
  now <- utcnow ;;
  ret (dict_of
    [ ("finalized", VBool true);
      ("finalized_at", VStr now);
      ("status", dget "status" (VStr "COMPLETED") params) ]).

Definition apply_approval_policy (params : dict) : M dict :=
  let amount := dget "amount" (VNum 0) params in
  let auto_approve_threshold := dget "auto_approve_threshold" (VNum 10000) params in
  a <- lift (as_num amount) ;;
  t <- lift (as_num auto_approve_threshold) ;;
  if Qle_bool a t then
    ret (dict_of
      [ ("approval_status", VStr "AUTO_APPROVED");
        ("approver_id", VStr "SYSTEM");
        ("approval_reason",
         VStr ("Amount $" ++ fstr amount ++ " below threshold $"
               ++ fstr auto_approve_threshold)) ])
  else
    ret (dict_of
      [ ("approval_status", VStr "ESCALATED");
        ("approver_id", VStr "MGR-001");
        ("approval_reason",
         VStr ("Amount $" ++ fstr amount ++ " exceeds threshold $"
               ++ fstr auto_approve_threshold)) ]).

Definition post_to_erp (params : dict) : M dict :=
  let entries := dget "accounting_entries" (VList []) params in
  u <- uuid4 ;;
  n <- lift (py_len entries) ;;
  now <- utcnow ;;
  ret (dict_of
    [ ("posted", VBool true);
      ("erp_txn_id", VStr ("ERP-TXN-" ++ hex8 u));
      ("entries_posted", VNum (inject_Z (Z.of_nat n)));
      ("posted_at", VStr now) ]).

Definition schedule_payment (params : dict) : M dict :=
  let due_date := dget "due_date" (VStr "2024-02-15") params in
  let amount := dget "amount" (VNum 0) params in
  u <- uuid4 ;;
  ret (dict_of
    [ ("scheduled_payment_id", VStr ("PAY-" ++ hex8 u));
      ("scheduled_date", due_date);
      ("amount", amount);
      ("payment_method", VStr "ACH") ]).

Definition notify_vendor (params : dict) : M dict :=
  let vendor_name := dget "vendor_name" (VStr "") params in
  let invoice_id := dget "invoice_id" (VStr "") params in
  now <- utcnow ;;
  ret (dict_of
    [ ("notification_sent", VBool true);
      ("recipient", vendor_name);
      ("channel", VStr "email");
      ("message", VStr ("Invoice " ++ fstr invoice_id ++ " has been processed"));
      ("sent_at", VStr now) ]).

Definition notify_finance_team (params : dict) : M dict :=
  let invoice_id := dget "invoice_id" (VStr "") params in
  let status := dget "status" (VStr "COMPLETED") params in
  now <- utcnow ;;
  ret (dict_of
    [ ("notification_sent", VBool true);
      ("recipient", VStr "finance-team@company.com");
      ("channel", VStr "slack");
      ("message", VStr ("Invoice " ++ fstr invoice_id ++ " status: " ++ fstr status));
      ("sent_at", VStr now) ]).

Definition get_human_decision (params : dict) : M dict :=
  let decision := dget "decision" (VStr "PENDING") params in
  resume_token <- (if eq_str decision "ACCEPT"
                   then u <- uuid4 ;; ret (VStr ("RESUME-" ++ hex8 u))
                   else ret VNone) ;;
  ret (dict_of
    [ ("human_decision", decision);
      ("reviewer_id", dget "reviewer_id" (VStr "") params);
      ("resume_token", resume_token);
      ("next_stage", VStr (if eq_str decision "ACCEPT" then "RECONCILE" else "COMPLETE")) ]).

(** *** Stage functions: [src/nodes] *)

Definition stage_of (f : dict -> nat -> result dict * nat) : Node :=
  fun state w => (fst (f state (ticks w)), set_ticks (snd (f state (ticks w))) w).

Definition intake_node : Node := stage_of intake_stage.
Definition understand_node : Node := stage_of understand_stage.
Definition prepare_node : Node := stage_of prepare_stage.
Definition retrieve_node : Node := stage_of retrieve_stage.

Definition match_two_way_node (state : dict) : M dict :=
  let invoice_payload := dget "invoice_payload" (VDict ∅) state in
  let normalized_invoice := dget "normalized_invoice" (VDict ∅) state in
  let matched_pos := dget "matched_pos" (VList []) state in
  threshold <- lift (env_float "MATCH_THRESHOLD" 0.90) ;;
  tolerance_pct <- lift (env_float "TWO_WAY_TOLERANCE_PCT" 5) ;;
  invoice_id <- lift (vget invoice_payload "invoice_id" VNone) ;;
  payload_amount <- lift (vget invoice_payload "amount" (VNum 0)) ;;
  amount <- lift (vget normalized_invoice "amount" payload_amount) ;;
  line_items <- lift (vget normalized_invoice "line_items" (VList [])) ;;
  po_number <- lift (vget invoice_payload "po_number" VNone) ;;
  let invoice_for_match := dict_of
    [ ("invoice_id", invoice_id);
      ("amount", amount);
      ("line_items", line_items);
      ("po_number", po_number) ] in
  match_result <- execute_ability (fun p => lift (compute_match_score p))
    (dict_of
      [ ("invoice", VDict invoice_for_match);
        ("matched_pos", matched_pos);
        ("threshold", VNum threshold);
        ("tolerance_pct", VNum tolerance_pct) ]) ;;
  let match_score := dget "match_score" (VNum 0) (data match_result) in
  let match_status := dget "match_result" (VStr "FAILED") (data match_result) in
  let match_evidence := dget "match_evidence" (VDict ∅) (data match_result) in
  _ <- lift (format_3f match_score) ;;
  now <- utcnow ;;
  ret (dict_of
    [ ("current_stage", VStr "MATCH_TWO_WAY");
      ("match_score", match_score);
      ("match_result", match_status);
      ("tolerance_pct", VNum tolerance_pct);
      ("match_evidence", match_evidence);
      ("updated_at", VStr now) ]).

(** A primary key must be a string. *)
Definition as_key (v : value) : result string :=
  match v with
  | VStr s => Ok s
  | _ => Raise TypeError
  end.

(** [session.add(checkpoint); session.commit()] *)
Definition add_checkpoint (cp : CheckpointModel) : M unit :=
  fun w => match checkpoints w !! checkpoint_id cp with
           | Some _ => (Raise IntegrityError, w)
           | None => (Ok tt, set_checkpoints (<[checkpoint_id cp := cp]> (checkpoints w)) w)
           end.

(** The [state_blob] display of [checkpoint_hitl_node]. *)
Definition make_state_blob (state : dict) : dict :=
  dict_of
    [ ("workflow_id", dget "workflow_id" (VStr "") state);
      ("invoice_payload", dget "invoice_payload" (VDict ∅) state);
      ("vendor_profile", dget "vendor_profile" (VDict ∅) state);
      ("normalized_invoice", dget "normalized_invoice" (VDict ∅) state);
      ("matched_pos", dget "matched_pos" (VList []) state);
      ("match_score", dget "match_score" (VNum 0) state);
      ("match_result", dget "match_result" (VStr "FAILED") state);
      ("match_evidence", dget "match_evidence" (VDict ∅) state);
      ("flags", dget "flags" (VDict ∅) state);
      ("bigtool_selections", dget "bigtool_selections" (VDict ∅) state) ].

Definition db_pool_hint : list string := ["postgres"; "sqlite"; "dynamodb"].

Definition checkpoint_hitl_node (state : dict) : M dict :=
  let invoice_payload := dget "invoice_payload" (VDict ∅) state in
  let workflow_id := dget "workflow_id" (VStr "") state in
  let match_score := dget "match_score" (VNum 0) state in
  db_tool <- lift (select "db" (dict_of [("workflow_id", workflow_id)]) db_pool_hint None) ;;
  db_tool_name <- lift (tool_name db_tool) ;;
  reason <- lift (format_3f match_score) ;;
  checkpoint_result <- execute_ability create_checkpoint
    (dict_of
      [ ("workflow_id", workflow_id);
        ("reason", VStr ("Match score " ++ reason ++ " below threshold")) ]) ;;
  u <- uuid4 ;;
  let cid :=
    dget "checkpoint_id" (VStr ("CHKPT-" ++ hex8 u)) (data checkpoint_result) in
  let review_url :=
    dget "review_url" (VStr ("/human-review/" ++ fstr cid))
         (data checkpoint_result) in
  let paused_reason :=
    dget "paused_reason" (VStr "Match score below threshold") (data checkpoint_result) in
  let state_blob := make_state_blob state in
  invoice_id <- lift (vget invoice_payload "invoice_id" (VStr "")) ;;
  vendor_name <- lift (vget invoice_payload "vendor_name" (VStr "")) ;;
  amount <- lift (vget invoice_payload "amount" (VNum 0)) ;;
  key <- lift (as_key cid) ;;
  _ <- add_checkpoint
         (mkCheckpoint key workflow_id invoice_id vendor_name amount state_blob
                       paused_reason review_url "PENDING" VNone VNone None) ;;
  bigtool_selections <-
    lift (set_item (dget "bigtool_selections" (VDict ∅) state) "db" (VStr db_tool_name)) ;;
  now <- utcnow ;;
  ret (dict_of
    [ ("current_stage", VStr "CHECKPOINT_HITL");
      ("workflow_status", VStr PAUSED);
      ("hitl_checkpoint_id", cid);
      ("review_url", review_url);
      ("paused_reason", paused_reason);
      ("db_tool_used", VStr db_tool_name);
      ("updated_at", VStr now);
      ("bigtool_selections", bigtool_selections) ]).

(** The checkpoint update inside [hitl_decision_node]: the row whose key is
    [checkpoint_id], if there is one, gets its status, reviewer and decision
    time. *)
Definition decide_checkpoint (cid human_decision reviewer : value) : M unit :=
  w <- get_world ;;
  match cid with
  | VStr key =>
      match checkpoints w !! key with
      | Some cp =>
          now <- utcnow ;;
          modify (fun w =>
            set_checkpoints
              (<[key := mkCheckpoint (checkpoint_id cp) (cp_workflow_id cp)
                          (cp_invoice_id cp) (cp_vendor_name cp) (cp_amount cp)
                          (state_blob cp) (reason_for_hold cp) (review_url cp)
                          (if eq_str human_decision "ACCEPT" then "ACCEPTED" else "REJECTED")
                          reviewer (reviewer_notes cp) (Some now)]> (checkpoints w)) w)
      | None => ret tt
      end
  | _ => ret tt
  end.

Definition hitl_decision_node (state : dict) : M dict :=
  let cid := dget "hitl_checkpoint_id" (VStr "") state in
  let human_decision := dget "human_decision" (VStr "") state in
  let reviewer := dget "reviewer_id" (VStr "") state in
  if negb (truthy human_decision) then
    now <- utcnow ;;
    errors <- lift (list_append (dget "errors" (VList []) state)
                (VDict (dict_of
                  [ ("stage", VStr "HITL_DECISION");
                    ("error", VStr "No human decision provided");
                    ("timestamp", VStr now) ]))) ;;
    ret (dict_of
      [ ("current_stage", VStr "HITL_DECISION");
        ("errors", errors) ])
  else
    decision_result <- execute_ability get_human_decision
      (dict_of
        [ ("checkpoint_id", cid);
          ("decision", human_decision);
          ("reviewer_id", reviewer) ]) ;;
    let resume_token := dget "resume_token" VNone (data decision_result) in
    _ <- decide_checkpoint cid human_decision reviewer ;;
    if eq_str human_decision "ACCEPT" then
      now <- utcnow ;;
      ret (dict_of
        [ ("current_stage", VStr "HITL_DECISION");
          ("workflow_status", VStr RUNNING);
          ("human_decision", human_decision);
          ("reviewer_id", reviewer);
          ("resume_token", resume_token);
          ("next_stage", VStr "RECONCILE");
          ("updated_at", VStr now) ])
    else
      now <- utcnow ;;
      ret (dict_of
        [ ("current_stage", VStr "HITL_DECISION");
          ("workflow_status", VStr MANUAL_HANDOFF);
          ("human_decision", human_decision);
          ("reviewer_id", reviewer);
          ("resume_token", VNone);
          ("next_stage", VStr "COMPLETE");
          ("updated_at", VStr now) ]).

Definition reconcile_node (state : dict) : M dict :=
  let invoice_payload := dget "invoice_payload" (VDict ∅) state in
  let normalized_invoice := dget "normalized_invoice" (VDict ∅) state in
  let vendor_profile := dget "vendor_profile" (VDict ∅) state in
  payload_vendor <- lift (vget invoice_payload "vendor_name" (VStr "")) ;;
  vendor_name <- lift (vget vendor_profile "normalized_name" payload_vendor) ;;
  payload_amount <- lift (vget invoice_payload "amount" (VNum 0)) ;;
  amount <- lift (vget normalized_invoice "amount" payload_amount) ;;
  invoice_id <- lift (vget invoice_payload "invoice_id" VNone) ;;
  currency <- lift (vget normalized_invoice "currency" (VStr "USD")) ;;
  line_items <- lift (vget normalized_invoice "line_items" (VList [])) ;;
  accounting_result <- execute_ability build_accounting_entries
    (dict_of
      [ ("invoice", VDict (dict_of
          [ ("invoice_id", invoice_id);
            ("amount", amount);
            ("currency", currency);
            ("line_items", line_items) ]));
        ("vendor_name", vendor_name) ]) ;;
  let accounting_entries := dget "accounting_entries" (VList []) (data accounting_result) in
  n <- lift (py_len accounting_entries) ;;
  now <- utcnow ;;
  let reconciliation_report := dict_of
    [ ("invoice_id", invoice_id);
      ("vendor_name", vendor_name);
      ("total_amount", amount);
      ("entries_count", VNum (inject_Z (Z.of_nat n)));
      ("total_debit", dget "total_debit" (VNum 0) (data accounting_result));
      ("total_credit", dget "total_credit" (VNum 0) (data accounting_result));
      ("balanced", dget "balanced" (VBool true) (data accounting_result));
      ("reconciled_at", VStr now) ] in
  now' <- utcnow ;;
  ret (dict_of
    [ ("current_stage", VStr "RECONCILE");
      ("accounting_entries", accounting_entries);
      ("reconciliation_report", VDict reconciliation_report);
      ("updated_at", VStr now') ]).

Definition approve_node (state : dict) : M dict :=
  let invoice_payload := dget "invoice_payload" (VDict ∅) state in
  let normalized_invoice := dget "normalized_invoice" (VDict ∅) state in
  payload_amount <- lift (vget invoice_payload "amount" (VNum 0)) ;;
  amount <- lift (vget normalized_invoice "amount" payload_amount) ;;
  invoice_id <- lift (vget invoice_payload "invoice_id" VNone) ;;
  vendor_name <- lift (vget invoice_payload "vendor_name" VNone) ;;
  approval_result <- execute_ability apply_approval_policy
    (dict_of
      [ ("invoice_id", invoice_id);
        ("amount", amount);
        ("vendor_name", vendor_name);
        ("auto_approve_threshold", VNum 10000) ]) ;;
  let approval_status := dget "approval_status" (VStr "PENDING") (data approval_result) in
  let approver_id := dget "approver_id" VNone (data approval_result) in
  now <- utcnow ;;
  ret (dict_of
    [ ("current_stage", VStr "APPROVE");
      ("approval_status", approval_status);
      ("approver_id", approver_id);
      ("updated_at", VStr now) ]).

Definition erp_pool_hint : list string := ["sap_sandbox"; "netsuite"; "mock_erp"].
Definition email_pool_hint : list string := ["sendgrid"; "smartlead"; "ses"].

Definition posting_node (state : dict) : M dict :=
  let invoice_payload := dget "invoice_payload" (VDict ∅) state in
  let normalized_invoice := dget "normalized_invoice" (VDict ∅) state in
  let accounting_entries := dget "accounting_entries" (VList []) state in
  payload_amount <- lift (vget invoice_payload "amount" (VNum 0)) ;;
  amount <- lift (vget normalized_invoice "amount" payload_amount) ;;
  due_date <- lift (vget invoice_payload "due_date" (VStr "")) ;;
  erp_tool <- lift (select "erp_connector" (dict_of [("amount", amount)]) erp_pool_hint None) ;;
  erp_tool_name <- lift (tool_name erp_tool) ;;
  invoice_id <- lift (vget invoice_payload "invoice_id" VNone) ;;
  post_result <- execute_ability post_to_erp
    (dict_of
      [ ("invoice_id", invoice_id);
        ("accounting_entries", accounting_entries);
        ("erp_tool", VStr erp_tool_name) ]) ;;
  let posted := dget "posted" (VBool false) (data post_result) in
  let erp_txn_id := dget "erp_txn_id" VNone (data post_result) in
  vendor_name <- lift (vget invoice_payload "vendor_name" VNone) ;;
  payment_result <- execute_ability schedule_payment
    (dict_of
      [ ("invoice_id", invoice_id);
        ("amount", amount);
        ("due_date", due_date);
        ("vendor_name", vendor_name) ]) ;;
  let scheduled_payment_id := dget "scheduled_payment_id" VNone (data payment_result) in
  now <- utcnow ;;
  ret (dict_of
    [ ("current_stage", VStr "POSTING");
      ("posted", posted);
      ("erp_txn_id", erp_txn_id);
      ("scheduled_payment_id", scheduled_payment_id);
      ("updated_at", VStr now) ]).

Definition notify_node (state : dict) : M dict :=
  let invoice_payload := dget "invoice_payload" (VDict ∅) state in
  let workflow_status := dget "workflow_status" (VStr "COMPLETED") state in
  invoice_id <- lift (vget invoice_payload "invoice_id" (VStr "")) ;;
  vendor_name <- lift (vget invoice_payload "vendor_name" (VStr "")) ;;
  email_tool <- lift (select "email" (dict_of [("vendor_name", vendor_name)]) email_pool_hint None) ;;
  email_tool_name <- lift (tool_name email_tool) ;;
  vendor_notify_result <- execute_ability notify_vendor
    (dict_of
      [ ("invoice_id", invoice_id);
        ("vendor_name", vendor_name);
        ("status", workflow_status);
        ("email_tool", VStr email_tool_name) ]) ;;
  payload_amount <- lift (vget invoice_payload "amount" (VNum 0)) ;;
  finance_notify_result <- execute_ability notify_finance_team
    (dict_of
      [ ("invoice_id", invoice_id);
        ("vendor_name", vendor_name);
        ("status", workflow_status);
        ("amount", payload_amount) ]) ;;
  let vendor_notified := dget "notification_sent" (VBool false) (data vendor_notify_result) in
  let finance_notified := dget "notification_sent" (VBool false) (data finance_notify_result) in
  let notify_status := dict_of
    [ ("vendor_notified", vendor_notified);
      ("vendor_channel", dget "channel" (VStr "email") (data vendor_notify_result));
      ("finance_notified", finance_notified);
      ("finance_channel", dget "channel" (VStr "slack") (data finance_notify_result)) ] in
  let notified_parties :=
    ((if truthy vendor_notified then [vendor_name] else [])
     ++ (if truthy finance_notified then [VStr "finance-team"] else []))%list in
  bigtool_selections <-
    lift (set_item (dget "bigtool_selections" (VDict ∅) state) "email" (VStr email_tool_name)) ;;
  now <- utcnow ;;
  ret (dict_of
    [ ("current_stage", VStr "NOTIFY");
      ("notify_status", VDict notify_status);
      ("notified_parties", VList notified_parties);
      ("email_tool_used", VStr email_tool_name);
      ("updated_at", VStr now);
      ("bigtool_selections", bigtool_selections) ]).

(** One entry of the audit log built by [complete_node]. *)
Definition audit_entry (stage : string) (timestamp : value) (action : string) : dict :=
  dict_of
    [ ("stage", VStr stage);
      ("timestamp", timestamp);
      ("action", VStr action) ].

(** [for entry in audit_log: session.add(AuditLogModel(...))] *)
Fixpoint add_audit_logs (workflow_id : value)
    (entries : list (string * value * string)) : M unit :=
  match entries with
  | [] => ret tt
  | (stage, timestamp, action) :: rest =>
      u <- uuid4 ;;
      now <- utcnow ;;
      _ <- modify (fun w =>
             set_audit_logs
               (audit_logs w ++
                [mkAudit ("AUDIT-" ++ String.substring 0 8 u) workflow_id stage action
                         (audit_entry stage timestamp action) now]) w) ;;
      add_audit_logs workflow_id rest
  end.

(** The row of [workflow_states] for this workflow, if any, is marked
    finished. *)
Definition finish_workflow_state (workflow_id : value) (final_status : string) : M unit :=
  w <- get_world ;;
  match workflow_id with
  | VStr key =>
      match workflow_states w !! key with
      | Some ws =>
          now <- utcnow ;;
          modify (fun w =>
            set_workflow_states
              (<[key := mkWorkflowState "COMPLETE" final_status
                          (ws_state_data ws) (Some now)]> (workflow_states w)) w)
      | None => ret tt
      end
  | _ => ret tt
  end.

(** "Determine final status" in [complete_node]. *)
Definition final_status_of (state : dict) : string :=
  let workflow_status := dget "workflow_status" (VStr COMPLETED) state in
  let human_decision := dget "human_decision" VNone state in
  if eq_str human_decision "REJECT" then MANUAL_HANDOFF
  else if eq_str workflow_status PAUSED then PAUSED
  else COMPLETED.

Definition complete_node (state : dict) : M dict :=
  let workflow_id := dget "workflow_id" (VStr "") state in
  let invoice_payload := dget "invoice_payload" (VDict ∅) state in
  let human_decision := dget "human_decision" VNone state in
  let final_status := final_status_of state in
  db_tool <- lift (select "db" (dict_of [("workflow_id", workflow_id)]) db_pool_hint None) ;;
  db_tool_name <- lift (tool_name db_tool) ;;
  invoice_id <- lift (vget invoice_payload "invoice_id" VNone) ;;
  vendor_name <- lift (vget invoice_payload "vendor_name" VNone) ;;
  amount <- lift (vget invoice_payload "amount" VNone) ;;
  currency <- lift (vget invoice_payload "currency" (VStr "USD")) ;;
  n <- lift (py_len (dget "accounting_entries" (VList []) state)) ;;
  completed_at <- utcnow ;;
  let final_payload := dict_of
    [ ("workflow_id", workflow_id);
      ("invoice_id", invoice_id);
      ("vendor_name", vendor_name);
      ("amount", amount);
      ("currency", currency);
      ("status", VStr final_status);
      ("match_score", dget "match_score" VNone state);
      ("match_result", dget "match_result" VNone state);
      ("approval_status", dget "approval_status" VNone state);
      ("posted", dget "posted" (VBool false) state);
      ("erp_txn_id", dget "erp_txn_id" VNone state);
      ("scheduled_payment_id", dget "scheduled_payment_id" VNone state);
      ("accounting_entries_count", VNum (inject_Z (Z.of_nat n)));
      ("notified_parties", dget "notified_parties" (VList []) state);
      ("bigtool_selections", dget "bigtool_selections" (VDict ∅) state);
      ("completed_at", VStr completed_at) ] in
  score <- lift (format_3f (dget "match_score" (VNum 0) state)) ;;
  let updated_at := dget "updated_at" VNone state in
  let stages_before :=
    [ ("INTAKE", dget "ingest_ts" VNone state, "Invoice ingested");
      ("UNDERSTAND", updated_at,
       "OCR via " ++ fstr (dget "ocr_tool_used" (VStr "unknown") state));
      ("PREPARE", updated_at,
       "Enrichment via " ++ fstr (dget "enrichment_tool_used" (VStr "unknown") state));
      ("RETRIEVE", updated_at,
       "ERP fetch via " ++ fstr (dget "erp_tool_used" (VStr "unknown") state));
      ("MATCH_TWO_WAY", updated_at, "Match score: " ++ score) ] in
  let checkpoint_entry :=
    if truthy (dget "hitl_checkpoint_id" VNone state)
    then [ ("CHECKPOINT_HITL", updated_at,
            "Checkpoint created: " ++ fstr (dget "hitl_checkpoint_id" VNone state)) ]
    else [] in
  let decision_entry :=
    if truthy human_decision
    then [ ("HITL_DECISION", updated_at,
            "Human decision: " ++ fstr human_decision ++ " by "
            ++ fstr (dget "reviewer_id" (VStr "unknown") state)) ]
    else [] in
  let stages_after :=
    if orb (eq_str (dget "match_result" VNone state) "MATCHED")
           (eq_str human_decision "ACCEPT")
    then [ ("RECONCILE", updated_at, "Accounting entries created");
           ("APPROVE", updated_at,
            "Approval: " ++ fstr (dget "approval_status" (VStr "N/A") state));
           ("POSTING", updated_at,
            "Posted: " ++ fstr (dget "posted" (VBool false) state));
           ("NOTIFY", updated_at,
            "Notified: " ++ fstr (dget "notified_parties" (VList []) state)) ]
    else [] in
  now <- utcnow ;;
  let audit_log :=
    List.app stages_before
      (List.app checkpoint_entry
        (List.app decision_entry
          (List.app stages_after
            [ ("COMPLETE", VStr now,
               "Workflow completed with status: " ++ final_status) ]))) in
  _ <- add_audit_logs workflow_id audit_log ;;
  _ <- finish_workflow_state workflow_id final_status ;;
  _ <- execute_ability finalize_workflow
         (dict_of
           [ ("workflow_id", workflow_id);
             ("status", VStr final_status) ]) ;;
  now' <- utcnow ;;
  ret (dict_of
    [ ("current_stage", VStr "COMPLETE");
      ("workflow_status", VStr final_status);
      ("final_payload", VDict final_payload);
      ("audit_log",
       VList (map (fun e => VDict (audit_entry (fst (fst e)) (snd (fst e)) (snd e)))
                  audit_log));
      ("updated_at", VStr now') ]).

(** *** The graphs and their entry points: [src/graph/workflow.py] *)

Definition create_invoice_graph : StateGraph :=
  mkGraph
    [ ("intake", intake_node);
      ("understand", understand_node);
      ("prepare", prepare_node);
      ("retrieve", retrieve_node);
      ("match_two_way", match_two_way_node);
      ("checkpoint_hitl", checkpoint_hitl_node);
      ("hitl_decision", hitl_decision_node);
      ("reconcile", reconcile_node);
      ("approve", approve_node);
      ("posting", posting_node);
      ("notify", notify_node);
      ("complete", complete_node) ]
    "intake"
    [ ("intake", Edge (ToNode "understand"));
      ("understand", Edge (ToNode "prepare"));
      ("prepare", Edge (ToNode "retrieve"));
      ("retrieve", Edge (ToNode "match_two_way"));
      ("match_two_way",
       ConditionalEdges should_checkpoint
         [ ("checkpoint_hitl", ToNode "checkpoint_hitl");
           ("reconcile", ToNode "reconcile") ]);
      ("checkpoint_hitl", Edge END);
      ("hitl_decision",
       ConditionalEdges should_continue_after_hitl
         [ ("reconcile", ToNode "reconcile");
           ("complete", ToNode "complete") ]);
      ("reconcile", Edge (ToNode "approve"));
      ("approve", Edge (ToNode "posting"));
      ("posting", Edge (ToNode "notify"));
      ("notify", Edge (ToNode "complete"));
      ("complete", Edge END) ].

(** The graph [resume_workflow] builds: it starts at the decision stage. *)
Definition resume_graph : StateGraph :=
  mkGraph
    [ ("hitl_decision", hitl_decision_node);
      ("reconcile", reconcile_node);
      ("approve", approve_node);
      ("posting", posting_node);
      ("notify", notify_node);
      ("complete", complete_node) ]
    "hitl_decision"
    [ ("hitl_decision",
       ConditionalEdges should_continue_after_hitl
         [ ("reconcile", ToNode "reconcile");
           ("complete", ToNode "complete") ]);
      ("reconcile", Edge (ToNode "approve"));
      ("approve", Edge (ToNode "posting"));
      ("posting", Edge (ToNode "notify"));
      ("notify", Edge (ToNode "complete"));
      ("complete", Edge END) ].

(** The two rows written before the run starts.  A workflow id already in
    [workflow_states] violates the primary key: nothing is written. *)
Definition add_workflow_rows (inv : InvoiceModel) (key : string)
    (ws : WorkflowStateModel) : M unit :=
  fun w => match workflow_states w !! key with
           | Some _ => (Raise IntegrityError, w)
           | None =>
               (Ok tt,
                set_workflow_states (<[key := ws]> (workflow_states w))
                  (set_invoices (invoices w ++ [inv]) w))
           end.

(** [InvoiceProcessingGraph.start_workflow].  An exception of this
    computation is one that escapes [start_workflow] itself. *)
Definition start_workflow (invoice_payload : dict) : M dict :=
  u <- uuid4 ;;
  let workflow_id := "WF-" ++ hex8 u in
  started_at <- utcnow ;;
  updated_at <- utcnow ;;
  let initial_state := dict_of
    [ ("workflow_id", VStr workflow_id);
      ("workflow_status", VStr RUNNING);
      ("current_stage", VStr "INTAKE");
      ("started_at", VStr started_at);
      ("updated_at", VStr updated_at);
      ("invoice_payload", VDict invoice_payload);
      ("errors", VList []);
      ("bigtool_selections", VDict ∅) ] in
  u' <- uuid4 ;;
  _ <- add_workflow_rows
         (mkInvoice ("INV-" ++ String.substring 0 8 u') workflow_id
            (dget "invoice_id" (VStr "") invoice_payload)
            (dget "vendor_name" (VStr "") invoice_payload)
            (dget "vendor_tax_id" (VStr "") invoice_payload)
            (dget "amount" (VNum 0) invoice_payload)
            (dget "currency" (VStr "USD") invoice_payload)
            "PROCESSING" invoice_payload)
         workflow_id
         (mkWorkflowState "INTAKE" RUNNING initial_state None) ;;
  try_except
    (final_state <- ainvoke create_invoice_graph recursion_limit initial_state ;;
     _ <- modify (fun w =>
            set_running_workflows (<[workflow_id := final_state]> (running_workflows w)) w) ;;
     if eq_str (dget "workflow_status" VNone final_state) PAUSED then
       ret (dict_of
         [ ("workflow_id", VStr workflow_id);
           ("status", VStr "PAUSED");
           ("checkpoint_id", dget "hitl_checkpoint_id" VNone final_state);
           ("review_url", dget "review_url" VNone final_state);
           ("message", VStr "Workflow paused for human review") ])
     else
       ret (dict_of
         [ ("workflow_id", VStr workflow_id);
           ("status", dget "workflow_status" (VStr "COMPLETED") final_state);
           ("final_payload", dget "final_payload" VNone final_state);
           ("message", VStr "Workflow completed successfully") ]))
    (fun e =>
       ret (dict_of
         [ ("workflow_id", VStr workflow_id);
           ("status", VStr "FAILED");
           ("error", VStr (exn_str e));
           ("message", VStr "Workflow execution failed") ])).

(** [resume_state = {**state_blob, ...}] *)
Definition resume_state_of (blob : dict) (cid decision reviewer now : string) : dict :=
  dict_of
    [ ("workflow_status", VStr RUNNING);
      ("human_decision", VStr decision);
      ("reviewer_id", VStr reviewer);
      ("hitl_checkpoint_id", VStr cid);
      ("updated_at", VStr now) ] ∪ blob.

(** [InvoiceProcessingGraph.resume_workflow] *)
Definition resume_workflow (cid decision reviewer notes : string) : M dict :=
  w <- get_world ;;
  match checkpoints w !! cid with
  | None =>
      ret (dict_of
        [ ("status", VStr "ERROR");
          ("message", VStr ("Checkpoint " ++ cid ++ " not found")) ])
  | Some checkpoint =>
      if negb (String.eqb (status checkpoint) "PENDING") then
        ret (dict_of
          [ ("status", VStr "ERROR");
            ("message",
             VStr ("Checkpoint already processed: " ++ status checkpoint)) ])
      else
        let workflow_id := cp_workflow_id checkpoint in
        now <- utcnow ;;
        let resume_state :=
          resume_state_of (state_blob checkpoint) cid decision reviewer now in
        try_except
          (final_state <- ainvoke resume_graph recursion_limit resume_state ;;
           ret (dict_of
             [ ("workflow_id", workflow_id);
               ("status", dget "workflow_status" (VStr "COMPLETED") final_state);
               ("final_payload", dget "final_payload" VNone final_state);
               ("message",
                VStr ("Workflow resumed and completed after " ++ decision)) ]))
          (fun e =>
             ret (dict_of
               [ ("workflow_id", workflow_id);
                 ("status", VStr "FAILED");
                 ("error", VStr (exn_str e));
                 ("message", VStr "Workflow resume failed") ]))
  end.

(** ** The scoring rule in the words of the specification

    Used only to state what [compute_match_score] computes. *)

(** [max(0, 1 − |invoice_amount − candidate_amount| / candidate_amount)] *)
Definition spec_amount_score (invoice_amount candidate_amount : Q) : Q :=
  Qmax 0 (1 - Qabs (invoice_amount - candidate_amount) / candidate_amount).

(** The line-item-presence score: a fixed high constant when line items
    exist, a lower constant otherwise. *)
Definition spec_line_score (has_line_items : bool) : Q :=
  if has_line_items then 0.8 else 0.5.

(** The weighted sum, weights 0.6 and 0.4. *)
Definition spec_combined_score (invoice_amount candidate_amount : Q)
    (has_line_items : bool) : Q :=
  0.6 * spec_amount_score invoice_amount candidate_amount
  + 0.4 * spec_line_score has_line_items.

(** The best score over the candidates whose amount is not zero; [0] when
    there is none. *)
Fixpoint spec_best_score (invoice_amount : Q) (has_line_items : bool)
    (candidate_amounts : list Q) : Q :=
  match candidate_amounts with
  | [] => 0
  | c :: rest =>
      if Qeq_bool c 0 then spec_best_score invoice_amount has_line_items rest
      else Qmax (spec_combined_score invoice_amount c has_line_items)
                (spec_best_score invoice_amount has_line_items rest)
  end.

(** The amount of a candidate record, when the record is a dict whose
    amount (0 when absent) is a number. *)
Definition candidate_amount (po : value) : option Q :=
  match po with
  | VDict d =>
      match as_num (dget "amount" (VNum 0) d) with
      | Ok c => Some c
      | Raise _ => None
      end
  | _ => None
  end.

Fixpoint candidate_amounts (pos : list value) : option (list Q) :=
  match pos with
  | [] => Some []
  | po :: rest =>
      match candidate_amount po, candidate_amounts rest with
      | Some c, Some cs => Some (c :: cs)
      | _, _ => None
      end
  end.

(** ** Sample data for closed examples *)

Definition sample_uuid (n : nat) : string :=
  nat_to_string (1000 + n) ++ "abcdef0123456789abcdef012345".
Definition sample_clock (n : nat) : string := "T" ++ nat_to_string n.
Definition no_env : string -> option string := fun _ => None.
Definition no_env_float : string -> option (option Q) := fun _ => None.
Definition sample_str : value -> string := fun _ => "?".
Definition sample_exn_str : exn -> string := fun _ => "error".
Definition sample_stage : dict -> nat -> result dict * nat := fun _ n => (Ok ∅, n).

Definition sample_payload : dict :=
  dict_of
    [ ("invoice_id", VStr "INV-2");
      ("vendor_name", VStr "Acme");
      ("amount", VNum 75000);
      ("line_items", VList [VStr "item"]) ].

(** A state as it reaches the checkpoint stage: the earlier stages have
    written [raw_id] and one error record. *)
Definition sample_state : dict :=
  dict_of
    [ ("workflow_id", VStr "WF-1");
      ("workflow_status", VStr "RUNNING");
      ("invoice_payload", VDict sample_payload);
      ("raw_id", VStr "RAW-1");
      ("errors", VList [VStr "e0"]);
      ("match_score", VNum 0);
      ("match_result", VStr "FAILED");
      ("bigtool_selections", VDict ∅) ].


(** A pending checkpoint as the checkpoint stage persists it. *)
Definition sample_checkpoint : CheckpointModel :=
  mkCheckpoint "CHKPT-1" (VStr "WF-1") (VStr "INV-2") (VStr "Acme") (VNum 75000)
    (make_state_blob sample_state)
    (VStr "Match score 0.000 below threshold") (VStr "/human-review/CHKPT-1")
    "PENDING" VNone VNone None.

Definition sample_world : World :=
  mkWorld (<["CHKPT-1" := sample_checkpoint]> ∅) ∅ [] [] ∅ 0 [].

(** Scenario 1 of the specification: invoice 10000, one candidate of 10000,
    line items present, threshold 0.90. *)
Definition scenario1_params : dict :=
  dict_of
    [ ("invoice", VDict (dict_of
        [ ("amount", VNum 10000);
          ("line_items", VList [VStr "item"]) ]));
      ("matched_pos", VList [VDict (dict_of [("amount", VNum 10000)])]);
      ("threshold", VNum 0.90) ].

(** ** Vocabulary of the proofs *)

(** [keeps f m]: running [m] does not change the component [f] of the
    world, whether [m] returns or raises. *)
Definition keeps {X A : Type} (f : World -> X) (m : M A) : Prop :=
  forall w : World, f (snd (m w)) = f w.


(** Components of the world that draws, audit rows and workflow rows do
    not touch ([checkpoints] and [trace] are such). *)
Definition log_frame {X : Type} (f : World -> X) : Prop :=
  (forall n w, f (set_ticks n w) = f w)
  /\ (forall a w, f (set_audit_logs a w) = f w)
  /\ (forall s w, f (set_workflow_states s w) = f w).


(** A set [S] of node names that the edges of [g] never leave. *)
Definition target_in (S : list string) (t : target) : bool :=
  match t with
  | END => true
  | ToNode n => existsb (String.eqb n) S
  end.

Definition closed (g : StateGraph) (S : list string) : bool :=
  forallb
    (fun n =>
       match assoc n (edges g) with
       | None => true
       | Some (Edge t) => target_in S t
       | Some (ConditionalEdges _ path_map) =>
           forallb (fun p => target_in S (snd p)) path_map
       end) S.

(** The statuses a run can end with. *)
Definition terminal_status (v : option value) : Prop :=
  v = Some (VStr PAUSED) \/ v = Some (VStr COMPLETED)
  \/ v = Some (VStr FAILED) \/ v = Some (VStr MANUAL_HANDOFF).

(** The stages after the decision, in either graph. *)
Definition later_stages : list string :=
  ["reconcile"; "approve"; "posting"; "notify"; "complete"].

(** The tools [BigtoolPicker.select] chooses among: the available tools of
    the capability, restricted to the allow-list when one is given. *)
Definition candidates (cap : string) (pool_hint : list string) : list Tool :=
  match pool_hint with
  | [] => get_available_tools cap
  | _ :: _ =>
      List.filter (fun t => existsb (String.eqb (name t)) pool_hint)
                  (get_available_tools cap)
  end.

(** The explicit preference, when it names a candidate. *)
Definition preferred (prefer : option string) (tools : list Tool) : option Tool :=
  match prefer with
  | Some p => if negb (String.eqb p "") then find_tool p tools else None
  | None => None
  end.

(** The parameters [match_two_way_node] passes to the scoring ability, for a
    state whose payload and normalized invoice are the mappings [payload]
    and [norm]. *)
Definition match_params (state payload norm : dict) (threshold tolerance_pct : Q) : dict :=
  dict_of
    [ ("invoice", VDict (dict_of
        [ ("invoice_id", dget "invoice_id" VNone payload);
          ("amount", dget "amount" (dget "amount" (VNum 0) payload) norm);
          ("line_items", dget "line_items" (VList []) norm);
          ("po_number", dget "po_number" VNone payload) ]));
      ("matched_pos", dget "matched_pos" (VList []) state);
      ("threshold", VNum threshold);
      ("tolerance_pct", VNum tolerance_pct) ].

(** [returns r]: the call returned, it did not raise. *)
Definition returns {A : Type} (r : result A) : bool :=
  match r with
  | Ok _ => true
  | Raise _ => false
  end.

(** * Properties *)

(** ** Lookups in dict displays *)

Lemma dget_insert_eq (k : string) (v dflt : value) (d : dict) :
  dget k dflt (<[k := v]> d) = v.
Proof. unfold dget. by rewrite lookup_insert_eq. Qed.

Lemma dget_insert_ne (k k' : string) (v dflt : value) (d : dict) :
  k ≠ k' -> dget k' dflt (<[k := v]> d) = dget k' dflt d.
Proof. intros H. unfold dget. by rewrite lookup_insert_ne. Qed.

Lemma eq_str_true (v : value) (s : string) : eq_str v s = true <-> v = VStr s.
Proof.
  destruct v; simpl; try (split; [discriminate | intros H; discriminate H]).
  rewrite String.eqb_eq. split; [intros -> | intros [= ->]]; done.
Qed.

Lemma eq_str_false (v : value) (s : string) : eq_str v s = false <-> v ≠ VStr s.
Proof.
  rewrite <- eq_str_true. destruct (eq_str v s); split; done.
Qed.

(** ** Branch routing *)

(** C4.  After the match stage the dispatcher routes to the checkpoint
    (suspend) node exactly when the state's [match_result] equals the
    sentinel ["FAILED"] and to [reconcile] otherwise; the choice is a function
    of the [match_result] field alone, so a fixed state always yields the same
    next node. *)
Theorem should_checkpoint_routing (state : dict) :
  (should_checkpoint state = "checkpoint_hitl"
     <-> dget "match_result" (VStr "") state = VStr "FAILED")
  /\ (should_checkpoint state = "reconcile"
     <-> dget "match_result" (VStr "") state ≠ VStr "FAILED")
  /\ next_target create_invoice_graph "match_two_way" state
     = Ok (ToNode (should_checkpoint state))
  /\ (forall state' : dict,
        state' !! "match_result" = state !! "match_result" ->
        next_target create_invoice_graph "match_two_way" state'
        = next_target create_invoice_graph "match_two_way" state).
Proof.
  assert (Hnext : forall st : dict,
            next_target create_invoice_graph "match_two_way" st
            = Ok (ToNode (should_checkpoint st))).
  { intros st. unfold next_target. simpl. unfold should_checkpoint.
    destruct (eq_str (dget "match_result" (VStr "") st) "FAILED"); reflexivity. }
  unfold should_checkpoint.
  destruct (eq_str (dget "match_result" (VStr "") state) "FAILED") eqn:E.
  - apply eq_str_true in E. repeat split; try done.
    + rewrite Hnext. unfold should_checkpoint. rewrite E. reflexivity.
    + intros st' Hst. rewrite !Hnext. unfold should_checkpoint, dget.
      by rewrite Hst.
  - apply eq_str_false in E. repeat split; try done.
    + rewrite Hnext. unfold should_checkpoint.
      apply eq_str_false in E. by rewrite E.
    + intros st' Hst. rewrite !Hnext. unfold should_checkpoint, dget.
      by rewrite Hst.
Qed.

(** ** Two-way match scoring *)

Lemma py_max_Qmax (x : Q) : py_max 0 x == Qmax 0 x.
Proof.
  unfold py_max. destruct (Qle_bool x 0) eqn:E.
  - apply Qle_bool_iff in E. symmetry. by apply Q.max_l.
  - symmetry. apply Q.max_r. apply Qnot_lt_le. intros H.
    apply Qlt_le_weak in H. apply Qle_bool_iff in H. congruence.
Qed.

(** The score the loop computes for one candidate. *)
Lemma code_score_spec (a c : Q) (b : bool) :
  ~ c == 0 ->
  (py_max 0 (1 - Qabs (a - c) / c * 100 / 100) * 0.6 + (if b then 0.8 else 0.5) * 0.4
   == spec_combined_score a c b)%Q.
Proof.
  intros Hc. unfold spec_combined_score, spec_amount_score, spec_line_score.
  rewrite py_max_Qmax.
  assert (E : 1 - Qabs (a - c) / c * 100 / 100 == 1 - Qabs (a - c) / c) by (field; done).
  rewrite E. ring.
Qed.

Lemma eq_zero_as_num (v : value) (q : Q) :
  as_num v = Ok q -> eq_zero v = Qeq_bool q 0.
Proof. destruct v as [| [] | | | |]; simpl; intros [= <-]; reflexivity. Qed.

Lemma match_step_typed (inv d : dict) (amount : value) (a c : Q) (acc : Q * option value) :
  as_num amount = Ok a ->
  as_num (dget "amount" (VNum 0) d) = Ok c ->
  match_step (VDict inv) amount acc (VDict d)
  = Ok (if Qeq_bool c 0 then acc
        else
          let score := (py_max 0 (1 - Qabs (a - c) / c * 100 / 100) * 0.6
                        + (if truthy (dget "line_items" VNone inv) then 0.8 else 0.5) * 0.4)%Q in
          if negb (Qle_bool score (fst acc)) then (score, Some (VDict d)) else acc).
Proof.
  intros Ha Hc. unfold match_step, vget. cbn [rbind].
  rewrite (eq_zero_as_num _ _ Hc).
  destruct (Qeq_bool c 0) eqn:E; [reflexivity |].
  rewrite Ha, Hc. cbn [rbind]. unfold py_div. rewrite E. cbn [rbind].
  cbv zeta.
  match goal with |- context [negb ?b] => destruct (negb b) end; reflexivity.
Qed.

Lemma spec_best_score_nonneg (a : Q) (b : bool) (cs : list Q) :
  (0 <= spec_best_score a b cs)%Q.
Proof.
  induction cs as [| c cs IH]; simpl; [apply Qle_refl |].
  destruct (Qeq_bool c 0); [done |].
  eapply Qle_trans; [exact IH | apply Q.le_max_r].
Qed.

Lemma match_loop_typed (inv : dict) (amount : value) (a : Q) (pos : list value) (cs : list Q) :
  as_num amount = Ok a ->
  candidate_amounts pos = Some cs ->
  forall acc : Q * option value,
    (0 <= fst acc)%Q ->
    exists acc' : Q * option value,
      match_loop (VDict inv) amount pos acc = Ok acc'
      /\ (fst acc' == Qmax (fst acc)
                       (spec_best_score a (truthy (dget "line_items" VNone inv)) cs))%Q.
Proof.
  intros Ha. revert cs.
  induction pos as [| po pos IH]; intros cs Hcs acc Hacc.
  - injection Hcs as <-. exists acc. split; [reflexivity |].
    simpl. symmetry. by apply Q.max_l.
  - simpl in Hcs.
    destruct (candidate_amount po) as [c |] eqn:Hc; [| discriminate].
    destruct (candidate_amounts pos) as [cs' |] eqn:Hcs'; [| discriminate].
    injection Hcs as <-.
    destruct po as [| | | | | d]; try discriminate. simpl in Hc.
    destruct (as_num (dget "amount" (VNum 0) d)) as [c' |] eqn:Hd; [| discriminate].
    injection Hc as ->.
    cbn [match_loop]. rewrite (match_step_typed inv d amount a c acc Ha Hd).
    cbn [rbind spec_best_score].
    destruct (Qeq_bool c 0) eqn:E.
    + apply (IH cs' eq_refl acc Hacc).
    + apply Qeq_bool_neq in E.
      set (score := (py_max 0 (1 - Qabs (a - c) / c * 100 / 100) * 0.6
                     + (if truthy (dget "line_items" VNone inv) then 0.8 else 0.5) * 0.4)%Q).
      assert (Hs : (score == spec_combined_score a c (truthy (dget "line_items" VNone inv)))%Q)
        by (by apply code_score_spec).
      cbv zeta. fold score.
      destruct (Qle_bool score (fst acc)) eqn:L; cbn [negb].
      * apply Qle_bool_iff in L.
        destruct (IH cs' eq_refl acc Hacc) as [acc' [H1 H2]].
        exists acc'. split; [exact H1 |]. rewrite H2, <- Hs.
        rewrite Q.max_assoc. rewrite (Q.max_l (fst acc) score L). reflexivity.
      * assert (L' : (fst acc <= score)%Q).
        { apply Qnot_lt_le. intros H. apply Qlt_le_weak in H.
          apply Qle_bool_iff in H. congruence. }
        destruct (IH cs' eq_refl (score, Some (VDict d))) as [acc' [H1 H2]].
        { simpl. by eapply Qle_trans. }
        exists acc'. split; [exact H1 |]. rewrite H2, <- Hs. simpl.
        rewrite Q.max_assoc. rewrite (Q.max_r (fst acc) score L'). reflexivity.
Qed.


Lemma round_half_even_comp (x y : Q) : (x == y)%Q -> round_half_even x = round_half_even y.
Proof.
  intros H. unfold round_half_even.
  rewrite (Qfloor_comp x y H).
  assert (E : (x - inject_Z (Qfloor y) == y - inject_Z (Qfloor y))%Q) by (by rewrite H).
  rewrite (Qleb_comp _ _ (Qeq_refl (1 # 2)) _ _ E).
  rewrite (Qleb_comp _ _ E _ _ (Qeq_refl (1 # 2))).
  reflexivity.
Qed.

Lemma round3_comp (x y : Q) : (x == y)%Q -> round3 x = round3 y.
Proof.
  intros H. unfold round3. f_equal. apply round_half_even_comp. by rewrite H.
Qed.

Lemma match_loop_best_match (inv : dict) (amount : value) (pos : list value) :
  forall acc acc' : Q * option value,
    match_loop (VDict inv) amount pos acc = Ok acc' ->
    (snd acc = None \/ exists d, snd acc = Some (VDict d)) ->
    (snd acc' = None \/ exists d, snd acc' = Some (VDict d)).
Proof.
  induction pos as [| po pos IH]; intros acc acc' H Hacc.
  - injection H as <-. exact Hacc.
  - cbn [match_loop] in H.
    destruct (match_step (VDict inv) amount acc po) as [acc1 |] eqn:Hs; [| discriminate].
    cbn [rbind] in H. apply (IH acc1 acc' H).
    unfold match_step in Hs.
    destruct po as [| | | | | d]; try discriminate.
    cbn [vget rbind] in Hs.
    destruct (eq_zero (dget "amount" (VNum 0) d)); [by injection Hs as <- |].
    destruct (as_num amount); [| discriminate]. cbn [rbind] in Hs.
    destruct (as_num (dget "amount" (VNum 0) d)); [| discriminate]. cbn [rbind] in Hs.
    destruct (py_div _ _); [| discriminate]. cbn [rbind] in Hs.
    cbv zeta in Hs.
    match type of Hs with context [negb ?b] => destruct (negb b) end;
      injection Hs as <-; [right; by eexists | exact Hacc].
Qed.

Lemma best_get_ok (best_match : option value) (k : string) :
  (best_match = None \/ exists d, best_match = Some (VDict d)) ->
  exists v, best_get best_match k = Ok v.
Proof.
  intros [-> | [d ->]]; simpl; [by eexists |].
  destruct (negb _); by eexists.
Qed.

(** C1.  For every invoice and candidate list the two-way match score is the
    best, over the candidates, of the weighted sum 0.6 * amount score + 0.4 *
    line-item score, where the amount score is
    max(0, 1 - |invoice amount - candidate amount| / candidate amount) and the
    line-item score is 0.8 when line items exist and 0.5 otherwise; the
    verdict is MATCHED when that best score reaches the threshold (0.90 when
    none is given) and FAILED otherwise; with no candidate the score is 0 and
    the verdict FAILED whatever the threshold.  An amount equal to the
    candidate's gives amount score 1, and invoice 10000 against one candidate
    of 10000 with line items and threshold 0.90 gives 0.92 and MATCHED. *)
Theorem compute_match_score_correct :
  (forall params : dict,
      truthy (dget "matched_pos" (VList []) params) = false ->
      field_of (compute_match_score params) "match_score" = Some (VNum 0)
      /\ field_of (compute_match_score params) "match_result" = Some (VStr "FAILED"))
  /\ (forall (params inv : dict) (po : value) (pos : list value) (cs : list Q) (a thr : Q),
      dget "invoice" (VDict ∅) params = VDict inv ->
      as_num (dget "amount" (VNum 0) inv) = Ok a ->
      dget "matched_pos" (VList []) params = VList (po :: pos) ->
      candidate_amounts (po :: pos) = Some cs ->
      as_num (dget "threshold" (VNum 0.90) params) = Ok thr ->
      let best := spec_best_score a (truthy (dget "line_items" VNone inv)) cs in
      field_of (compute_match_score params) "match_score" = Some (VNum (round3 best))
      /\ field_of (compute_match_score params) "match_result"
         = Some (VStr (if Qle_bool thr best then "MATCHED" else "FAILED")))
  /\ (forall a : Q, ~ (a == 0)%Q -> (spec_amount_score a a == 1)%Q)
  /\ (spec_combined_score 10000 10000 true == 0.92)%Q
  /\ field_of (compute_match_score scenario1_params) "match_score" = Some (VNum (920 # 1000))
  /\ field_of (compute_match_score scenario1_params) "match_result" = Some (VStr "MATCHED").
Proof.
  split; [| split; [| split; [| split; [| split]]]].
  - intros params H. unfold compute_match_score. rewrite H. simpl. done.
  - intros params inv po pos cs a thr Hinv Ha Hpos Hcs Hthr best.
    unfold compute_match_score. rewrite Hpos, Hinv.
    cbn [truthy negb vget py_iter rbind].
    destruct (match_loop_typed inv _ a (po :: pos) cs Ha Hcs (0%Q, None))
      as [acc' [Hloop Hbest]]; [simpl; apply Qle_refl |].
    rewrite Hloop. cbn [rbind]. rewrite Hthr. cbn [rbind].
    pose proof (match_loop_best_match inv _ (po :: pos) _ _ Hloop (or_introl eq_refl)) as Hbm.
    destruct (best_get_ok (snd acc') "po_number" Hbm) as [v1 ->].
    destruct (best_get_ok (snd acc') "amount" Hbm) as [v2 ->].
    cbn [rbind field_of].
    assert (E : (fst acc' == best)%Q).
    { rewrite Hbest. simpl. apply Q.max_r. apply spec_best_score_nonneg. }
    split.
    + rewrite lookup_insert_eq. by rewrite (round3_comp _ _ E).
    + rewrite lookup_insert_ne by done. rewrite lookup_insert_eq.
      by rewrite (Qleb_comp _ _ (Qeq_refl thr) _ _ E).
  - intros a Ha. unfold spec_amount_score.
    assert (E : (1 - Qabs (a - a) / a == 1)%Q).
    { assert (E0 : (a - a == 0)%Q) by ring. rewrite E0. change (Qabs 0) with 0%Q. field. done. }
    rewrite E. by apply Q.max_r.
  - vm_compute. reflexivity.
  - vm_compute. reflexivity.
  - vm_compute. reflexivity.
Qed.

Lemma match_step_no_zero_division (invoice amount : value) (acc : Q * option value) (po : value) :
  match_step invoice amount acc po <> Raise ZeroDivisionError.
Proof.
  unfold match_step.
  destruct (vget po "amount" (VNum 0)) as [po_amount | e] eqn:Hpo; cbn [rbind].
  2: { destruct po; simpl in Hpo; congruence. }
  destruct (eq_zero po_amount) eqn:Hz; [discriminate |].
  destruct (as_num amount) as [a | e] eqn:Ha; cbn [rbind].
  2: { destruct amount as [| [] | | | |]; simpl in Ha; congruence. }
  destruct (as_num po_amount) as [p | e] eqn:Hp; cbn [rbind].
  2: { destruct po_amount as [| [] | | | |]; simpl in Hp; congruence. }
  unfold py_div. rewrite <- (eq_zero_as_num _ _ Hp), Hz. cbn [rbind].
  destruct (vget invoice "line_items" VNone) as [li | e] eqn:Hli; cbn [rbind].
  2: { destruct invoice; simpl in Hli; congruence. }
  cbv zeta. match goal with |- context [negb ?b] => destruct (negb b) end; discriminate.
Qed.

Lemma match_loop_no_zero_division (invoice amount : value) (pos : list value) :
  forall acc, match_loop invoice amount pos acc <> Raise ZeroDivisionError.
Proof.
  induction pos as [| po pos IH]; intros acc; cbn [match_loop]; [discriminate |].
  destruct (match_step invoice amount acc po) as [acc' | e] eqn:Hs; cbn [rbind].
  - apply IH.
  - intros [= ->]. by apply (match_step_no_zero_division invoice amount acc po).
Qed.

Lemma match_loop_all_zero (invoice amount : value) (pos : list value) :
  Forall (fun po => exists d : dict, po = VDict d /\ eq_zero (dget "amount" (VNum 0) d) = true) pos ->
  forall acc, match_loop invoice amount pos acc = Ok acc.
Proof.
  induction 1 as [| po pos [d [-> Hz]] _ IH]; intros acc; cbn [match_loop]; [reflexivity |].
  unfold match_step. cbn [vget rbind]. rewrite Hz. cbn [rbind]. apply IH.
Qed.

Lemma best_get_no_zero_division (best_match : option value) (k : string) :
  best_get best_match k <> Raise ZeroDivisionError.
Proof.
  destruct best_match as [po |]; cbn [best_get]; [| discriminate].
  destruct (truthy po); [| discriminate].
  destruct po; discriminate.
Qed.

(** C9.  Scoring never divides by zero: a candidate whose amount equals 0
    is skipped before the division, so [compute_match_score] never raises
    [ZeroDivisionError]; and when every candidate of a non-empty list has
    amount 0 the best score is 0 and the verdict FAILED for every positive
    threshold. *)
Theorem zero_amount_candidates_skipped :
  (forall params : dict, compute_match_score params <> Raise ZeroDivisionError)
  /\ (forall (invoice amount : value) (acc : Q * option value) (d : dict),
        eq_zero (dget "amount" (VNum 0) d) = true ->
        match_step invoice amount acc (VDict d) = Ok acc)
  /\ (forall (params inv : dict) (po : value) (pos : list value) (thr : Q),
        dget "invoice" (VDict ∅) params = VDict inv ->
        dget "matched_pos" (VList []) params = VList (po :: pos) ->
        Forall (fun po => exists d : dict,
                  po = VDict d /\ eq_zero (dget "amount" (VNum 0) d) = true) (po :: pos) ->
        as_num (dget "threshold" (VNum 0.90) params) = Ok thr ->
        (0 < thr)%Q ->
        field_of (compute_match_score params) "match_score" = Some (VNum (round3 0))
        /\ field_of (compute_match_score params) "match_result" = Some (VStr "FAILED"))
  /\ (round3 0 == 0)%Q.
Proof.
  split; [| split; [| split]].
  - intros params. unfold compute_match_score.
    destruct (negb _); [discriminate |].
    destruct (vget _ "amount" _) as [amount | e] eqn:Hv; cbn [rbind].
    2: { destruct (dget "invoice" (VDict ∅) params); simpl in Hv; congruence. }
    destruct (py_iter _) as [items | e] eqn:Hi; cbn [rbind].
    2: { destruct (dget "matched_pos" (VList []) params); simpl in Hi; congruence. }
    destruct (match_loop _ _ _ _) as [best | e] eqn:Hl; cbn [rbind].
    2: { intros [= ->]. by apply (match_loop_no_zero_division _ _ _ _ Hl). }
    destruct (as_num (dget "threshold" _ _)) as [thr | e] eqn:Ht; cbn [rbind].
    2: { destruct (dget "threshold" (VNum 0.90) params) as [| [] | | | |];
         simpl in Ht; congruence. }
    destruct (best_get (snd best) "po_number") as [v1 | e] eqn:H1; cbn [rbind].
    2: { intros [= ->]. by apply (best_get_no_zero_division _ _ H1). }
    destruct (best_get (snd best) "amount") as [v2 | e] eqn:H2; cbn [rbind].
    2: { intros [= ->]. by apply (best_get_no_zero_division _ _ H2). }
    discriminate.
  - intros invoice amount acc d Hz. unfold match_step. cbn [vget rbind].
    by rewrite Hz.
  - intros params inv po pos thr Hinv Hpos Hall Hthr Hpos_thr.
    unfold compute_match_score. rewrite Hpos, Hinv.
    cbn [truthy negb vget py_iter rbind].
    rewrite (match_loop_all_zero _ _ _ Hall). cbn [rbind]. rewrite Hthr.
    cbn [rbind fst snd best_get field_of].
    split.
    + by rewrite lookup_insert_eq.
    + rewrite lookup_insert_ne by done. rewrite lookup_insert_eq.
      destruct (Qle_bool thr 0) eqn:L; [| done].
      apply Qle_bool_iff in L. exfalso. by apply (Qlt_not_le _ _ Hpos_thr).
  - vm_compute. reflexivity.
Qed.


(** ** The merge between stages *)

Lemma apply_update_lookup (state update : dict) (k : string) :
  apply_update state update !! k
  = match update !! k with
    | Some v => Some v
    | None => state !! k
    end.
Proof.
  unfold apply_update. rewrite lookup_union.
  destruct (update !! k), (state !! k); reflexivity.
Qed.

(** C6 (as amended).  The merge between stages overwrites every field the
    partial update contains, whatever its type: a list or a mapping in the
    update replaces the stored list or mapping, it is neither appended nor
    merged key by key; fields the update does not contain are kept.
    Consequently merging the same update twice gives the same state as
    merging it once, for every field.  A stage that extends a list builds the
    extended list itself: the decision stage, given no decision, returns the
    current errors with one record appended. *)
Theorem merge_overwrites (state update : dict) :
  (forall (k : string) (v : value),
      update !! k = Some v -> apply_update state update !! k = Some v)
  /\ (forall k : string,
      update !! k = None -> apply_update state update !! k = state !! k)
  /\ apply_update (apply_update state update) update = apply_update state update
  /\ (forall (errors : list value) (w : World),
      state !! "errors" = Some (VList errors) ->
      truthy (dget "human_decision" (VStr "") state) = false ->
      exists record : value,
        field_of (fst (hitl_decision_node state w)) "errors"
        = Some (VList (errors ++ [record]))).
Proof.
  split; [| split; [| split]].
  - intros k v H. by rewrite apply_update_lookup, H.
  - intros k H. by rewrite apply_update_lookup, H.
  - unfold apply_update. by rewrite (assoc_L (∪)), (idemp_L (∪)).
  - intros errors w Herr Hdec. unfold hitl_decision_node.
    rewrite Hdec. cbn [negb]. unfold dget at 1. rewrite Herr.
    eexists. unfold bind, utcnow, lift, ret. cbn. reflexivity.
Qed.


(** ** Frames: what a computation leaves untouched *)

Lemma keeps_ret {X A} (f : World -> X) (a : A) : keeps f (ret a).
Proof. intros w. reflexivity. Qed.

Lemma keeps_raise {X A} (f : World -> X) (e : exn) : keeps f (@raise A e).
Proof. intros w. reflexivity. Qed.

Lemma keeps_lift {X A} (f : World -> X) (r : result A) : keeps f (lift r).
Proof. intros w. reflexivity. Qed.

Lemma keeps_get_world {X} (f : World -> X) : keeps f get_world.
Proof. intros w. reflexivity. Qed.

Lemma keeps_bind {X A B} (f : World -> X) (m : M A) (k : A -> M B) :
  keeps f m -> (forall a, keeps f (k a)) -> keeps f (bind m k).
Proof.
  intros Hm Hk w. unfold bind. specialize (Hm w).
  destruct (m w) as [[a | e] w1]; simpl in *.
  - by rewrite Hk.
  - exact Hm.
Qed.

Lemma keeps_try_except {X A} (f : World -> X) (m : M A) (h : exn -> M A) :
  keeps f m -> (forall e, keeps f (h e)) -> keeps f (try_except m h).
Proof.
  intros Hm Hh w. unfold try_except. specialize (Hm w).
  destruct (m w) as [[a | e] w1]; simpl in *.
  - exact Hm.
  - by rewrite Hh.
Qed.

Lemma keeps_modify {X} (f : World -> X) (g : World -> World) :
  (forall w, f (g w) = f w) -> keeps f (modify g).
Proof. intros H w. apply H. Qed.

Lemma keeps_uuid4 {X} (f : World -> X) :
  (forall n w, f (set_ticks n w) = f w) -> keeps f uuid4.
Proof. intros H w. apply H. Qed.

Lemma keeps_utcnow {X} (f : World -> X) :
  (forall n w, f (set_ticks n w) = f w) -> keeps f utcnow.
Proof. intros H w. apply H. Qed.

Lemma keeps_execute_ability {X} (f : World -> X) (ability : dict -> M dict) (params : dict) :
  keeps f (ability params) -> keeps f (execute_ability ability params).
Proof.
  intros H. unfold execute_ability.
  apply keeps_try_except; [apply keeps_bind; [exact H |] |]; intros; apply keeps_ret.
Qed.

Lemma keeps_stage_of {X} (f : World -> X) (stage : dict -> nat -> result dict * nat)
    (state : dict) :
  (forall n w, f (set_ticks n w) = f w) -> keeps f (stage_of stage state).
Proof. intros H w. apply H. Qed.

Lemma log_frame_checkpoints : log_frame checkpoints.
Proof. repeat split. Qed.

Lemma log_frame_trace : log_frame trace.
Proof. repeat split. Qed.

(** One step of frame reasoning through the structure of a computation. *)
Ltac frame_side :=
  intros;
  first [ reflexivity
        | match goal with H : log_frame _ |- _ => apply (proj1 H) end
        | match goal with H : log_frame _ |- _ => apply (proj1 (proj2 H)) end
        | match goal with H : log_frame _ |- _ => apply (proj2 (proj2 H)) end
        | match goal with H : forall c w, _ (set_checkpoints c w) = _ w |- _ => apply H end ].

Ltac keeps_step :=
  lazymatch goal with
  | |- keeps _ (ret _) => apply keeps_ret
  | |- keeps _ (raise _) => apply keeps_raise
  | |- keeps _ (lift _) => apply keeps_lift
  | |- keeps _ get_world => apply keeps_get_world
  | |- keeps _ uuid4 => apply keeps_uuid4; frame_side
  | |- keeps _ utcnow => apply keeps_utcnow; frame_side
  | |- keeps _ (modify _) => apply keeps_modify; frame_side
  | |- keeps _ (bind _ _) => apply keeps_bind; [| intros ?]
  | |- keeps _ (try_except _ _) => apply keeps_try_except; [| intros ?]
  | |- keeps _ (execute_ability _ _) => apply keeps_execute_ability
  | |- keeps _ (stage_of _ _) => apply keeps_stage_of; frame_side
  | |- keeps _ (if ?b then _ else _) => destruct b
  | |- keeps _ (match ?x with _ => _ end) => destruct x
  | |- keeps _ (let _ := _ in _) => cbv zeta
  end.

Ltac keeps_tac := repeat keeps_step.

Section Frames.

Context {X : Type} (f : World -> X) (Hf : log_frame f).


Lemma keeps_build_accounting_entries params : keeps f (build_accounting_entries params).
Proof. unfold build_accounting_entries. keeps_tac. Qed.

Lemma keeps_finalize_workflow params : keeps f (finalize_workflow params).
Proof. unfold finalize_workflow. keeps_tac. Qed.

Lemma keeps_apply_approval_policy params : keeps f (apply_approval_policy params).
Proof. unfold apply_approval_policy. keeps_tac. Qed.

Lemma keeps_post_to_erp params : keeps f (post_to_erp params).
Proof. unfold post_to_erp. keeps_tac. Qed.

Lemma keeps_schedule_payment params : keeps f (schedule_payment params).
Proof. unfold schedule_payment. keeps_tac. Qed.

Lemma keeps_notify_vendor params : keeps f (notify_vendor params).
Proof. unfold notify_vendor. keeps_tac. Qed.

Lemma keeps_notify_finance_team params : keeps f (notify_finance_team params).
Proof. unfold notify_finance_team. keeps_tac. Qed.

Lemma keeps_get_human_decision params : keeps f (get_human_decision params).
Proof. unfold get_human_decision. keeps_tac. Qed.

Lemma keeps_add_audit_logs workflow_id entries : keeps f (add_audit_logs workflow_id entries).
Proof.
  induction entries as [| [[stage ts] action] rest IH]; cbn [add_audit_logs].
  - apply keeps_ret.
  - keeps_tac. exact IH.
Qed.

Lemma keeps_finish_workflow_state workflow_id final_status :
  keeps f (finish_workflow_state workflow_id final_status).
Proof. unfold finish_workflow_state. keeps_tac. Qed.


Lemma keeps_reconcile_node state : keeps f (reconcile_node state).
Proof. unfold reconcile_node. keeps_tac. apply keeps_build_accounting_entries. Qed.

Lemma keeps_approve_node state : keeps f (approve_node state).
Proof. unfold approve_node. keeps_tac. apply keeps_apply_approval_policy. Qed.

Lemma keeps_posting_node state : keeps f (posting_node state).
Proof.
  unfold posting_node. keeps_tac;
    lazymatch goal with
    | |- keeps _ (post_to_erp _) => apply keeps_post_to_erp
    | |- keeps _ (schedule_payment _) => apply keeps_schedule_payment
    end.
Qed.

Lemma keeps_notify_node state : keeps f (notify_node state).
Proof.
  unfold notify_node. keeps_tac;
    lazymatch goal with
    | |- keeps _ (notify_vendor _) => apply keeps_notify_vendor
    | |- keeps _ (notify_finance_team _) => apply keeps_notify_finance_team
    end.
Qed.

Lemma keeps_complete_node state : keeps f (complete_node state).
Proof.
  unfold complete_node. keeps_tac;
    lazymatch goal with
    | |- keeps _ (add_audit_logs _ _) => apply keeps_add_audit_logs
    | |- keeps _ (finish_workflow_state _ _) => apply keeps_finish_workflow_state
    | |- keeps _ (finalize_workflow _) => apply keeps_finalize_workflow
    end.
Qed.

End Frames.


(** ** The stage loop *)

Lemma assoc_Some_In {A} (k : string) (l : list (string * A)) (v : A) :
  assoc k l = Some v -> exists k', In (k', v) l.
Proof.
  unfold assoc. destruct (List.find _ l) as [[k' v'] |] eqn:F; [| discriminate].
  intros [= <-]. apply List.find_some in F. exists k'. apply F.
Qed.

Lemma target_in_node (S : list string) (n : string) :
  target_in S (ToNode n) = true -> In n S.
Proof.
  simpl. rewrite existsb_exists. intros [x [Hx E]].
  apply String.eqb_eq in E. by subst.
Qed.

Lemma next_target_closed (g : StateGraph) (S : list string) (n m : string) (state : dict) :
  closed g S = true -> In n S ->
  next_target g n state = Ok (ToNode m) -> In m S.
Proof.
  unfold closed. rewrite forallb_forall. intros Hc Hn. specialize (Hc n Hn).
  unfold next_target. destruct (assoc n (edges g)) as [[t | path path_map] |].
  - intros [= ->]. by apply target_in_node.
  - destruct (assoc (path state) path_map) as [t |] eqn:A; [| discriminate].
    intros [= ->]. apply assoc_Some_In in A as [k' Hin].
    rewrite forallb_forall in Hc. by apply target_in_node, (Hc _ Hin).
  - discriminate.
Qed.

(** One turn of the loop. *)
Lemma run_unfold (g : StateGraph) (fuel : nat) (current : string) (state : dict)
    (w : World) (stage : Node) :
  assoc current (nodes g) = Some stage ->
  run g (S fuel) current state w
  = match stage state (set_trace (trace w ++ [current]) w) with
    | (Ok update, w1) =>
        match next_target g current (apply_update state update) with
        | Raise e => (Raise e, w1)
        | Ok END => (Ok (apply_update state update), w1)
        | Ok (ToNode n) => run g fuel n (apply_update state update) w1
        end
    | (Raise e, w1) => (Raise e, w1)
    end.
Proof.
  intros H. cbn [run]. rewrite H. unfold bind, modify. cbn [fst snd].
  destruct (stage state _) as [[update | e] w1]; [| reflexivity].
  destruct (next_target g current (apply_update state update)) as [[n |] | e];
    reflexivity.
Qed.

(** A component of the world that the stages of a closed set of nodes keep,
    and that the trace does not touch, is kept by any run started inside the
    set. *)
Lemma run_keeps {X : Type} (f : World -> X) (g : StateGraph) (S : list string) :
  closed g S = true ->
  (forall t w, f (set_trace t w) = f w) ->
  (forall n stage state, In n S -> assoc n (nodes g) = Some stage -> keeps f (stage state)) ->
  forall fuel n state, In n S -> keeps f (run g fuel n state).
Proof.
  intros Hc Ht Hs. induction fuel as [| fuel IH]; intros n state Hn.
  - apply keeps_raise.
  - cbn [run]. destruct (assoc n (nodes g)) as [stage |] eqn:A; [| apply keeps_raise].
    apply keeps_bind; [apply keeps_modify; intros; apply Ht |]. intros _.
    apply keeps_bind; [by apply (Hs n) |]. intros update.
    destruct (next_target g n (apply_update state update)) as [[m |] | e] eqn:N.
    + apply IH. by apply (next_target_closed g S n m _ Hc Hn N).
    + apply keeps_ret.
    + apply keeps_raise.
Qed.

Lemma later_stages_keep {X : Type} (f : World -> X) (g : StateGraph) :
  log_frame f ->
  g = create_invoice_graph \/ g = resume_graph ->
  forall n stage state,
    In n later_stages -> assoc n (nodes g) = Some stage -> keeps f (stage state).
Proof.
  intros Hf Hg n stage state Hn.
  assert (E : assoc n (nodes g) = assoc n (nodes resume_graph)).
  { simpl in Hn. destruct Hg as [-> | ->]; [| reflexivity].
    destruct Hn as [<- | [<- | [<- | [<- | [<- | []]]]]]; reflexivity. }
  rewrite E. simpl in Hn.
  destruct Hn as [<- | [<- | [<- | [<- | [<- | []]]]]]; intros [= <-].
  - by apply keeps_reconcile_node.
  - by apply keeps_approve_node.
  - by apply keeps_posting_node.
  - by apply keeps_notify_node.
  - by apply keeps_complete_node.
Qed.


(** ** Backend selection *)

Lemma find_tool_In (n : string) (tools : list Tool) (t : Tool) :
  find_tool n tools = Some t -> In t tools /\ name t = n.
Proof.
  unfold find_tool. intros H. apply List.find_some in H as [H1 H2].
  split; [exact H1 | by apply String.eqb_eq].
Qed.

Lemma max_priority_In (best : Tool) (tools : list Tool) :
  In (max_priority best tools) (best :: tools).
Proof.
  revert best. induction tools as [| t tools IH]; intros best; cbn [max_priority].
  - by left.
  - destruct (IH (if Nat.ltb (priority best) (priority t) then t else best)) as [H | H].
    + destruct (Nat.ltb (priority best) (priority t)).
      * right. left. exact H.
      * left. exact H.
    + right. right. exact H.
Qed.

Lemma max_priority_ge (best : Tool) (tools : list Tool) (t : Tool) :
  In t (best :: tools) -> priority t <= priority (max_priority best tools).
Proof.
  revert best t. induction tools as [| t' tools IH]; intros best t Hin; cbn [max_priority].
  - destruct Hin as [<- | []]. lia.
  - pose proof (IH (if Nat.ltb (priority best) (priority t') then t' else best)) as Hm.
    pose proof (Hm _ (or_introl eq_refl)) as Hb.
    destruct Hin as [<- | [<- | Hin]].
    + destruct (Nat.ltb_spec (priority best) (priority t')); lia.
    + destruct (Nat.ltb_spec (priority best) (priority t')); lia.
    + apply Hm. by right.
Qed.

Lemma ocr_rule_In (cap : string) (tools : list Tool) (context : dict) (t : Tool) :
  (if String.eqb cap "ocr" then
     atts <~ py_iter (dget "attachments" (VList []) context) ;;
     hit <~ any_pdf atts ;;
     Ok (if hit then find_tool "aws_textract" tools else None)
   else Ok None) = Ok (Some t) ->
  In t tools.
Proof.
  destruct (String.eqb cap "ocr"); [| discriminate].
  destruct (py_iter _) as [atts |]; [| discriminate]. cbn [rbind].
  destruct (any_pdf atts) as [[] |]; try discriminate. cbn [rbind].
  intros [= H]. by apply find_tool_In in H as [H _].
Qed.

Lemma enrichment_rule_In (cap : string) (tools : list Tool) (context : dict) (t : Tool) :
  (if String.eqb cap "enrichment" then
     let tax := dget "vendor_tax_id" (VStr "") context in
     if truthy tax then
       n <~ py_len tax ;;
       Ok (if orb (Nat.eqb n 10) (Nat.eqb n 15)
           then find_tool "vendor_db" tools else None)
     else Ok None
   else Ok None) = Ok (Some t) ->
  In t tools.
Proof.
  destruct (String.eqb cap "enrichment"); [| discriminate]. cbv zeta.
  destruct (truthy _); [| discriminate].
  destruct (py_len _) as [n |]; [| discriminate]. cbn [rbind].
  destruct (orb _ _); [| discriminate].
  intros [= H]. by apply find_tool_In in H as [H _].
Qed.

Lemma erp_rule_In (cap : string) (tools : list Tool) (context : dict) (t : Tool) :
  (if String.eqb cap "erp_connector" then
     amount <~ as_num (dget "amount" (VNum 0) context) ;;
     Ok (if negb (Qle_bool amount 100000)
         then find_tool "sap_sandbox" tools else None)
   else Ok None) = Ok (Some t) ->
  In t tools.
Proof.
  destruct (String.eqb cap "erp_connector"); [| discriminate].
  destruct (as_num _) as [amount |]; [| discriminate]. cbn [rbind].
  destruct (negb _); [| discriminate].
  intros [= H]. by apply find_tool_In in H as [H _].
Qed.

Lemma select_by_context_In (cap : string) (tools : list Tool) (context : dict) (t : Tool) :
  _select_by_context cap tools context = Ok (Some t) -> In t tools.
Proof.
  unfold _select_by_context.
  match goal with |- rbind ?r _ = _ -> _ => destruct r as [[t1 |] |] eqn:R1 end;
    cbn [rbind]; try discriminate.
  - intros [= <-]. by apply (ocr_rule_In _ _ _ _ R1).
  - match goal with |- rbind ?r _ = _ -> _ => destruct r as [[t2 |] |] eqn:R2 end;
      cbn [rbind]; try discriminate.
    + intros [= <-]. by apply (enrichment_rule_In _ _ _ _ R2).
    + apply erp_rule_In.
Qed.

Lemma select_candidates (cap : string) (context : dict) (pool_hint : list string)
    (prefer : option string) :
  select cap context pool_hint prefer
  = match candidates cap pool_hint with
    | [] => Ok None
    | t0 :: rest =>
        let selected :=
          match preferred prefer (t0 :: rest), defaults cap with
          | None, Some default_name => find_tool default_name (t0 :: rest)
          | s, _ => s
          end in
        selected <~ match selected with
                    | None =>
                        if negb (Nat.eqb (size context) 0)
                        then _select_by_context cap (t0 :: rest) context
                        else Ok None
                    | Some t => Ok (Some t)
                    end ;;
        match selected with
        | None => Ok (Some (max_priority t0 rest))
        | Some t => Ok (Some t)
        end
    end.
Proof.
  unfold select, candidates, preferred.
  destruct (get_available_tools cap) as [| a l]; [by destruct pool_hint |].
  destruct pool_hint as [| h hs]; cbv beta iota zeta.
  2: match goal with
     | |- context [List.filter ?p (a :: l)] =>
         destruct (List.filter p (a :: l)) as [| t0 rest]; [reflexivity |]
     end.
  all: destruct prefer as [p |];
    [destruct (negb (String.eqb p ""));
       [match goal with |- context [find_tool p ?l] => destruct (find_tool p l) end |] |];
    destruct (defaults cap); reflexivity.
Qed.

Lemma pools_capability (cap : string) (t : Tool) :
  In t (pools cap) -> capability t = cap.
Proof.
  unfold pools.
  repeat match goal with
         | |- In t (if String.eqb cap ?s then _ else _) -> _ =>
             destruct (String.eqb cap s) eqn:E;
             [apply String.eqb_eq in E; subst cap; simpl;
              intros [<- | [<- | [<- | []]]]; reflexivity | clear E]
         end.
  intros [].
Qed.

Lemma candidates_In (cap : string) (pool_hint : list string) (t : Tool) :
  In t (candidates cap pool_hint) ->
  In t (pools cap) /\ available t = true
  /\ (pool_hint <> [] -> In (name t) pool_hint).
Proof.
  unfold candidates, get_available_tools.
  destruct pool_hint as [| h hs].
  - rewrite filter_In. intros [H1 H2]. by repeat split.
  - rewrite !filter_In. intros [[H1 H2] H3]. repeat split; try done.
    intros _. apply existsb_exists in H3 as [x [Hx E]].
    apply String.eqb_eq in E. by rewrite E.
Qed.

(** X1.  [BigtoolPicker.select] never leaves the pool or the allow-list: a
    tool it returns belongs to the pool of the requested capability, is
    available, and, when an allow-list is given, is named in it. *)
Theorem select_within_allow_list (cap : string) (context : dict)
    (pool_hint : list string) (prefer : option string) (t : Tool) :
  select cap context pool_hint prefer = Ok (Some t) ->
  In t (pools cap) /\ capability t = cap /\ available t = true
  /\ (pool_hint <> [] -> In (name t) pool_hint).
Proof.
  rewrite select_candidates. intros H.
  assert (Hin : In t (candidates cap pool_hint)).
  { destruct (candidates cap pool_hint) as [| t0 rest]; [discriminate |].
    cbv zeta in H.
    set (sel := match preferred prefer (t0 :: rest), defaults cap with
                | None, Some default_name => find_tool default_name (t0 :: rest)
                | s, _ => s
                end) in H.
    assert (Hsel : forall t', sel = Some t' -> In t' (t0 :: rest)).
    { intros t' E. unfold sel, preferred in E.
      destruct prefer as [p |].
      - destruct (negb (String.eqb p "")).
        + destruct (find_tool p (t0 :: rest)) as [tp |] eqn:F.
          * destruct (defaults cap); injection E as <-;
              by apply find_tool_In in F as [F _].
          * destruct (defaults cap); [| discriminate].
            by apply find_tool_In in E as [E _].
        + destruct (defaults cap); [| discriminate].
          by apply find_tool_In in E as [E _].
      - destruct (defaults cap); [| discriminate].
        by apply find_tool_In in E as [E _]. }
    destruct sel as [ts |] eqn:S.
    - cbn [rbind] in H. injection H as <-. by apply Hsel.
    - destruct (negb (Nat.eqb (size context) 0)).
      + destruct (_select_by_context cap (t0 :: rest) context) as [[tc |] |] eqn:C;
          cbn [rbind] in H; try discriminate; injection H as <-.
        * by apply (select_by_context_In _ _ _ _ C).
        * apply max_priority_In.
      + cbn [rbind] in H. injection H as <-. apply max_priority_In. }
  apply candidates_In in Hin as (H1 & H2 & H3).
  repeat split; try done. by apply pools_capability.
Qed.

(** X2.  [BigtoolPicker.select] returns the null selection exactly when no
    available tool of the capability passes the allow-list; in particular it
    does so for a capability that has no pool. *)
Theorem select_none_iff_exhausted (cap : string) (context : dict)
    (pool_hint : list string) (prefer : option string) :
  (select cap context pool_hint prefer = Ok None <-> candidates cap pool_hint = [])
  /\ (pools cap = [] -> select cap context pool_hint prefer = Ok None).
Proof.
  assert (H : select cap context pool_hint prefer = Ok None
              <-> candidates cap pool_hint = []).
  { rewrite select_candidates.
    destruct (candidates cap pool_hint) as [| t0 rest]; [done |].
    split; [| discriminate]. cbv zeta.
    match goal with |- rbind ?r _ = _ -> _ => destruct r as [[ts |] |] end;
      discriminate. }
  split; [exact H |].
  intros Hp. apply H. unfold candidates, get_available_tools. rewrite Hp.
  by destruct pool_hint.
Qed.


(** X3.  Precedence in [BigtoolPicker.select]: an explicit preference that
    names a candidate wins; otherwise the environment default of the
    capability wins when it names a candidate, whatever the context and the
    priorities are. *)
Theorem select_precedence (cap : string) (context : dict)
    (pool_hint : list string) (prefer : option string) (t : Tool) :
  (preferred prefer (candidates cap pool_hint) = Some t ->
   select cap context pool_hint prefer = Ok (Some t))
  /\ (forall default_name : string,
        preferred prefer (candidates cap pool_hint) = None ->
        defaults cap = Some default_name ->
        find_tool default_name (candidates cap pool_hint) = Some t ->
        select cap context pool_hint prefer = Ok (Some t)).
Proof.
  rewrite select_candidates. split.
  - intros H. destruct (candidates cap pool_hint) as [| t0 rest].
    + destruct prefer as [p |]; [| discriminate]. simpl in H.
      destruct (negb (String.eqb p "")); discriminate.
    + cbv zeta. rewrite H. by destruct (defaults cap).
  - intros default_name Hp Hd Hf.
    destruct (candidates cap pool_hint) as [| t0 rest]; [discriminate |].
    cbv zeta. by rewrite Hp, Hd, Hf.
Qed.

Lemma select_by_context_no_rule (cap : string) (tools : list Tool) (context : dict) :
  String.eqb cap "ocr" = false ->
  String.eqb cap "enrichment" = false ->
  String.eqb cap "erp_connector" = false ->
  _select_by_context cap tools context = Ok None.
Proof. intros H1 H2 H3. unfold _select_by_context. by rewrite H1, H2, H3. Qed.

(** X4.  For a capability without a context rule (db, email, storage, ...),
    when neither a preference nor the environment default names a candidate,
    [BigtoolPicker.select] does not raise and falls back to a candidate of
    highest priority. *)
Theorem select_fallback_highest_priority (cap : string) (context : dict)
    (pool_hint : list string) (prefer : option string) :
  String.eqb cap "ocr" = false ->
  String.eqb cap "enrichment" = false ->
  String.eqb cap "erp_connector" = false ->
  candidates cap pool_hint <> [] ->
  preferred prefer (candidates cap pool_hint) = None ->
  (forall default_name : string,
      defaults cap = Some default_name ->
      find_tool default_name (candidates cap pool_hint) = None) ->
  exists t : Tool,
    select cap context pool_hint prefer = Ok (Some t)
    /\ In t (candidates cap pool_hint)
    /\ (forall t' : Tool,
          In t' (candidates cap pool_hint) -> priority t' <= priority t).
Proof.
  intros H1 H2 H3 Hne Hp Hd. rewrite select_candidates.
  destruct (candidates cap pool_hint) as [| t0 rest]; [done |].
  exists (max_priority t0 rest). split; [| split].
  - cbv zeta. rewrite Hp.
    assert (E : match defaults cap with
                | Some default_name => find_tool default_name (t0 :: rest)
                | None => None
                end = None).
    { destruct (defaults cap) as [dn |]; [by apply Hd | done]. }
    rewrite E. rewrite (select_by_context_no_rule _ _ _ H1 H2 H3).
    by destruct (negb _).
  - apply max_priority_In.
  - apply max_priority_ge.
Qed.

(** X5.  The ERP rule of [_select_by_context].  When the environment default
    for [erp_connector] names no candidate and no preference is given, an
    invoice amount above 100000 in the context selects [sap_sandbox] if it is
    a candidate, and an amount that is not a number makes
    [BigtoolPicker.select] raise [TypeError]. *)
Theorem select_high_value_erp (context : dict) (pool_hint : list string)
    (amount : value) :
  candidates "erp_connector" pool_hint <> [] ->
  find_tool (default "mock_erp" (getenv "DEFAULT_ERP_TOOL"))
            (candidates "erp_connector" pool_hint) = None ->
  context !! "amount" = Some amount ->
  (forall (a : Q) (t : Tool),
      as_num amount = Ok a -> (100000 < a)%Q ->
      find_tool "sap_sandbox" (candidates "erp_connector" pool_hint) = Some t ->
      select "erp_connector" context pool_hint None = Ok (Some t))
  /\ (forall e : exn,
        as_num amount = Raise e ->
        select "erp_connector" context pool_hint None = Raise TypeError).
Proof.
  intros Hne Hd Hctx.
  assert (Hsize : Nat.eqb (size context) 0 = false).
  { apply Nat.eqb_neq. intros E. apply map_size_empty_iff in E. subst.
    by rewrite lookup_empty in Hctx. }
  rewrite select_candidates.
  destruct (candidates "erp_connector" pool_hint) as [| t0 rest]; [done |].
  cbv zeta. cbn [preferred]. change (defaults "erp_connector")
    with (Some (default "mock_erp" (getenv "DEFAULT_ERP_TOOL"))).
  cbv beta iota. rewrite Hd, Hsize. cbn [negb]. unfold _select_by_context, dget.
  rewrite Hctx. cbn [String.eqb Ascii.eqb Bool.eqb rbind default]. unfold id.
  split.
  - intros a t Ha Hgt Hf. rewrite Ha. cbn [rbind].
    assert (L : Qle_bool a 100000 = false).
    { destruct (Qle_bool a 100000) eqn:L; [| done].
      apply Qle_bool_iff in L. exfalso. by apply (Qlt_not_le _ _ Hgt). }
    rewrite L. cbn [negb]. by rewrite Hf.
  - intros e He. rewrite He. cbn [rbind].
    destruct amount as [| [] | | | |]; simpl in He; congruence.
Qed.


(** ** The stages after the decision *)

(** X6.  The stages after the decision never write to the checkpoint table.
    A run of either graph that is at [reconcile], [approve], [posting],
    [notify] or [complete] leaves the table as it found it, whether the run
    returns, raises or exhausts the recursion limit: these stages, the
    abilities they call and the rows [complete] writes touch the clock, the
    audit log, the workflow rows and the trace only. *)
Theorem later_stages_keep_checkpoints (g : StateGraph) (fuel : nat) (n : string)
    (state : dict) (w : World) :
  g = create_invoice_graph \/ g = resume_graph ->
  In n later_stages ->
  checkpoints (snd (run g fuel n state w)) = checkpoints w.
Proof.
  intros Hg Hn. apply (run_keeps checkpoints g later_stages).
  - destruct Hg as [-> | ->]; reflexivity.
  - reflexivity.
  - intros n' stage state' Hn' A.
    by apply (later_stages_keep checkpoints g log_frame_checkpoints Hg n').
  - exact Hn.
Qed.


Lemma lookup_dict_of (l : list (string * value)) (k : string) :
  dict_of l !! k = assoc k l.
Proof.
  unfold dict_of, assoc. induction l as [| [k' v] l IH]; [reflexivity |].
  cbn [list_to_map foldr List.find fst snd]. rewrite lookup_insert.
  destruct (String.eqb k' k) eqn:E.
  - apply String.eqb_eq in E. subst. by rewrite decide_True.
  - apply String.eqb_neq in E. by rewrite decide_False.
Qed.

Lemma dget_dict_of (l : list (string * value)) (k : string) (dflt : value) :
  dget k dflt (dict_of l) = default dflt (assoc k l).
Proof. unfold dget. by rewrite lookup_dict_of. Qed.

(** X7.  The approval stage.  When the payload and the normalized invoice
    are mappings the stage does not raise.  With [amount] the normalized
    amount (the payload's, or 0, when absent): a numeric amount of at most
    10000 is auto-approved by SYSTEM, a larger one is escalated to MGR-001,
    and an amount that is not a number leaves the approval PENDING with no
    approver, the failure of the policy being swallowed by the client.  In
    every case the run goes on to [posting]: no approval status holds an
    invoice back. *)
Theorem approve_node_policy (state payload norm : dict) (w : World) (g : StateGraph) :
  dget "invoice_payload" (VDict ∅) state = VDict payload ->
  dget "normalized_invoice" (VDict ∅) state = VDict norm ->
  g = create_invoice_graph \/ g = resume_graph ->
  exists update : dict,
    fst (approve_node state w) = Ok update
    /\ update !! "approval_status"
       = Some (VStr match as_num (dget "amount" (dget "amount" (VNum 0) payload) norm) with
                    | Ok a => if Qle_bool a 10000 then "AUTO_APPROVED" else "ESCALATED"
                    | Raise _ => "PENDING"
                    end)
    /\ update !! "approver_id"
       = Some match as_num (dget "amount" (dget "amount" (VNum 0) payload) norm) with
              | Ok a => VStr (if Qle_bool a 10000 then "SYSTEM" else "MGR-001")
              | Raise _ => VNone
              end
    /\ next_target g "approve" (apply_update state update) = Ok (ToNode "posting").
Proof.
  intros Hp Hn Hg. unfold approve_node. rewrite Hp, Hn.
  unfold bind, lift, ret, utcnow, execute_ability, try_except, apply_approval_policy.
  cbn [vget fst snd]. rewrite !dget_dict_of.
  cbn [assoc List.find fst snd String.eqb Ascii.eqb Bool.eqb default from_option id as_num].
  assert (Hnext : forall st : dict, next_target g "approve" st = Ok (ToNode "posting")).
  { intros st. destruct Hg as [-> | ->]; reflexivity. }
  destruct (as_num _) as [a | e]; unfold bind, lift, ret; cbn [fst snd data];
    [destruct (Qle_bool a 10000); cbn [fst snd data] |];
    (eexists; split; [reflexivity |]);
    rewrite !lookup_dict_of, ?dget_dict_of; unfold dget; rewrite ?lookup_empty;
    cbn [assoc List.find fst snd String.eqb Ascii.eqb Bool.eqb default from_option id];
    auto.
Qed.


(** X8.  The posting stage schedules the payment whether or not the posting
    to the ERP succeeded.  When the payload and the normalized invoice are
    mappings and a connector is selected, the stage does not raise and its
    update carries a payment id.  If the accounting entries have a length the
    invoice is posted under a transaction id; if they have none (the posting
    ability raises, which the client swallows) the update says [posted] is
    false with no transaction id, and the payment is scheduled all the
    same. *)
Theorem posting_node_schedules_payment (state payload norm : dict) (w : World)
    (t : Tool) :
  dget "invoice_payload" (VDict ∅) state = VDict payload ->
  dget "normalized_invoice" (VDict ∅) state = VDict norm ->
  select "erp_connector"
         (dict_of [("amount", dget "amount" (dget "amount" (VNum 0) payload) norm)])
         erp_pool_hint None = Ok (Some t) ->
  exists (update : dict) (n : nat),
    fst (posting_node state w) = Ok update
    /\ update !! "scheduled_payment_id" = Some (VStr ("PAY-" ++ hex8 (uuid4_hex n)))
    /\ match py_len (dget "accounting_entries" (VList []) state) with
       | Ok _ =>
           update !! "posted" = Some (VBool true)
           /\ update !! "erp_txn_id"
              = Some (VStr ("ERP-TXN-" ++ hex8 (uuid4_hex (ticks w))))
       | Raise _ =>
           update !! "posted" = Some (VBool false)
           /\ update !! "erp_txn_id" = Some VNone
       end.
Proof.
  intros Hp Hn Hs. unfold posting_node. rewrite Hp, Hn.
  unfold bind, lift, ret, uuid4, utcnow, execute_ability, try_except,
    post_to_erp, schedule_payment.
  cbn [vget fst snd]. rewrite Hs. cbn [tool_name fst snd].
  rewrite !dget_dict_of.
  cbn [assoc List.find fst snd String.eqb Ascii.eqb Bool.eqb default from_option id].
  unfold bind, lift, ret, uuid4, utcnow. cbn [fst snd ticks set_ticks].
  destruct (py_len _) as [k | e]; cbn [fst snd data ticks set_ticks];
    (eexists; eexists; split; [reflexivity |]);
    rewrite !lookup_dict_of, ?dget_dict_of; unfold dget; rewrite ?lookup_empty;
    cbn [assoc List.find fst snd String.eqb Ascii.eqb Bool.eqb default from_option id];
    auto.
Qed.


(** What a successful scoring returns: a verdict and a number. *)
Lemma compute_match_score_shape (params r : dict) :
  compute_match_score params = Ok r ->
  (r !! "match_result" = Some (VStr "MATCHED")
   \/ r !! "match_result" = Some (VStr "FAILED"))
  /\ exists q : Q, r !! "match_score" = Some (VNum q).
Proof.
  unfold compute_match_score. cbv zeta.
  destruct (negb (truthy _)).
  - intros [= <-]. split; [right | eexists]; reflexivity.
  - repeat match goal with
           | |- rbind ?x _ = _ -> _ => destruct x; cbn [rbind]; [| discriminate]
           end.
    intros [= <-]. split.
    + destruct (Qle_bool _ _); [left | right]; reflexivity.
    + eexists. reflexivity.
Qed.

Lemma dget_empty (k : string) (dflt : value) : dget k dflt ∅ = dflt.
Proof. unfold dget. by rewrite lookup_empty. Qed.

Lemma dget_apply_update (state update : dict) (k : string) (dflt : value) :
  dget k dflt (apply_update state update)
  = match update !! k with
    | Some v => v
    | None => dget k dflt state
    end.
Proof.
  unfold dget. rewrite apply_update_lookup. by destruct (update !! k).
Qed.

Lemma next_target_match_two_way (state : dict) :
  next_target create_invoice_graph "match_two_way" state
  = Ok (ToNode (should_checkpoint state)).
Proof.
  unfold next_target. simpl. unfold should_checkpoint.
  destruct (eq_str (dget "match_result" (VStr "") state) "FAILED"); reflexivity.
Qed.

(** X9.  The match stage fails safe.  When the payload and the normalized
    invoice are mappings and the two thresholds of the environment read as
    numbers, the stage does not raise: its verdict is MATCHED or FAILED and
    its score a number.  Whenever the scoring ability raises (a candidate
    that is not a mapping, an amount that is not a number, ...), the client
    swallows the exception and the stage reports FAILED with score 0, so the
    run is routed to the checkpoint for human review. *)
Theorem match_two_way_node_fail_safe (state payload norm : dict) (w : World)
    (threshold tolerance_pct : Q) :
  dget "invoice_payload" (VDict ∅) state = VDict payload ->
  dget "normalized_invoice" (VDict ∅) state = VDict norm ->
  env_float "MATCH_THRESHOLD" 0.90 = Ok threshold ->
  env_float "TWO_WAY_TOLERANCE_PCT" 5 = Ok tolerance_pct ->
  exists update : dict,
    fst (match_two_way_node state w) = Ok update
    /\ (update !! "match_result" = Some (VStr "MATCHED")
        \/ update !! "match_result" = Some (VStr "FAILED"))
    /\ (exists q : Q, update !! "match_score" = Some (VNum q))
    /\ (forall e : exn,
          compute_match_score (match_params state payload norm threshold tolerance_pct)
          = Raise e ->
          update !! "match_result" = Some (VStr "FAILED")
          /\ update !! "match_score" = Some (VNum 0)
          /\ next_target create_invoice_graph "match_two_way"
               (apply_update state update)
             = Ok (ToNode "checkpoint_hitl")).
Proof.
  intros Hp Hn Ht Hl. unfold match_two_way_node. rewrite Hp, Hn, Ht, Hl.
  unfold bind, lift, ret, utcnow, execute_ability, try_except.
  cbn [vget fst snd]. fold (match_params state payload norm threshold tolerance_pct).
  destruct (compute_match_score _) as [r | e] eqn:C; unfold bind, ret;
    cbn [fst snd data].
  - apply compute_match_score_shape in C as [Hv [q Hq]].
    unfold dget at 1. rewrite Hq. cbn [default from_option id format_3f fst snd].
    eexists. split; [reflexivity |].
    rewrite !lookup_dict_of.
    cbn [assoc List.find fst snd String.eqb Ascii.eqb Bool.eqb].
    unfold dget. rewrite Hq. cbn [default from_option id].
    split; [destruct Hv as [-> | ->]; auto |].
    split; [by eexists |]. intros e [=].
  - rewrite !dget_empty. cbn [format_3f fst snd].
    eexists. split; [reflexivity |].
    rewrite next_target_match_two_way. unfold should_checkpoint.
    rewrite dget_apply_update, !lookup_dict_of.
    cbn [assoc List.find fst snd String.eqb Ascii.eqb Bool.eqb eq_str].
    split; [by right |]. split; [by eexists |]. intros e' _. done.
Qed.


(** The e-mail pool with the allow-list of [notify_node] is never exhausted
    and no context rule applies to it: the selection always succeeds. *)
Lemma select_email_total (context : dict) (prefer : option string) :
  exists t : Tool,
    select "email" context email_pool_hint prefer = Ok (Some t)
    /\ In t (candidates "email" email_pool_hint).
Proof.
  rewrite select_candidates.
  destruct (candidates "email" email_pool_hint) as [| t0 rest] eqn:C; [discriminate C |].
  cbv zeta.
  destruct (preferred prefer (t0 :: rest)) as [tp |] eqn:P.
  - exists tp. split; [by destruct (defaults "email") |].
    unfold preferred in P. destruct prefer as [p |]; [| discriminate].
    destruct (negb _); [| discriminate]. by apply find_tool_In in P as [P _].
  - change (defaults "email") with (Some (default "ses" (getenv "DEFAULT_EMAIL_TOOL"))).
    cbv beta iota.
    destruct (find_tool _ (t0 :: rest)) as [td |] eqn:D.
    + exists td. split; [reflexivity |]. by apply find_tool_In in D as [D _].
    + exists (max_priority t0 rest). split; [| apply max_priority_In].
      rewrite select_by_context_no_rule by reflexivity.
      by destruct (negb _).
Qed.

(** X10.  The notification stage.  When the payload and the recorded
    selections are mappings the stage does not raise: it selects an e-mail
    backend from its allow-list, notifies the vendor and the finance team,
    and reports exactly these two parties.  The list replaces whatever
    [notified_parties] the state held, so notifying again does not list a
    party twice; the selection is recorded under ["email"] beside the earlier
    ones. *)
Theorem notify_node_parties (state payload selections : dict) (w : World) :
  dget "invoice_payload" (VDict ∅) state = VDict payload ->
  dget "bigtool_selections" (VDict ∅) state = VDict selections ->
  exists (update : dict) (t : Tool),
    fst (notify_node state w) = Ok update
    /\ In (name t) email_pool_hint
    /\ update !! "email_tool_used" = Some (VStr (name t))
    /\ update !! "bigtool_selections"
       = Some (VDict (<["email" := VStr (name t)]> selections))
    /\ update !! "notified_parties"
       = Some (VList [dget "vendor_name" (VStr "") payload; VStr "finance-team"])
    /\ apply_update state update !! "notified_parties"
       = Some (VList [dget "vendor_name" (VStr "") payload; VStr "finance-team"]).
Proof.
  intros Hp Hs. unfold notify_node. rewrite Hp, Hs.
  unfold bind at 1. unfold lift at 1. cbn [vget fst snd].
  unfold bind at 1. unfold lift at 1. cbn [vget fst snd].
  destruct (select_email_total (dict_of [("vendor_name", dget "vendor_name" (VStr "") payload)]) None)
    as (t & St & Ht).
  unfold bind at 1. unfold lift at 1. rewrite St. cbn [fst snd].
  unfold bind, lift, ret, utcnow, execute_ability, try_except, notify_vendor,
    notify_finance_team.
  cbn [tool_name vget set_item fst snd data].
  unfold bind, ret, utcnow. cbn [fst snd data].
  rewrite !dget_dict_of.
  cbn [assoc List.find fst snd String.eqb Ascii.eqb Bool.eqb default from_option id
       truthy app].
  eexists. exists t. split; [reflexivity |].
  rewrite apply_update_lookup, !lookup_dict_of.
  cbn [assoc List.find fst snd String.eqb Ascii.eqb Bool.eqb].
  repeat split; try reflexivity.
  apply candidates_In in Ht as (_ & _ & Ht). by apply Ht.
Qed.


(** X11.  The reconciliation stage books a balanced pair of entries.  When
    the payload, the normalized invoice and the vendor profile are mappings
    the stage does not raise.  With [amount] the normalized amount (the
    payload's, or 0, when absent), its update holds two entries, a credit of
    [amount] to account 2100 and a debit of [amount] to account 5000, and a
    report that counts two entries with total debit and total credit both
    [amount] and says the books are balanced. *)
Theorem reconcile_node_balanced (state payload norm profile : dict) (w : World) :
  dget "invoice_payload" (VDict ∅) state = VDict payload ->
  dget "normalized_invoice" (VDict ∅) state = VDict norm ->
  dget "vendor_profile" (VDict ∅) state = VDict profile ->
  exists update payable expense report : dict,
    fst (reconcile_node state w) = Ok update
    /\ update !! "accounting_entries" = Some (VList [VDict payable; VDict expense])
    /\ update !! "reconciliation_report" = Some (VDict report)
    /\ payable !! "account_code" = Some (VStr "2100")
    /\ payable !! "debit" = Some (VNum 0)
    /\ payable !! "credit" = Some (dget "amount" (dget "amount" (VNum 0) payload) norm)
    /\ expense !! "account_code" = Some (VStr "5000")
    /\ expense !! "debit" = Some (dget "amount" (dget "amount" (VNum 0) payload) norm)
    /\ expense !! "credit" = Some (VNum 0)
    /\ report !! "entries_count" = Some (VNum 2)
    /\ report !! "total_debit" = Some (dget "amount" (dget "amount" (VNum 0) payload) norm)
    /\ report !! "total_credit" = Some (dget "amount" (dget "amount" (VNum 0) payload) norm)
    /\ report !! "balanced" = Some (VBool true).
Proof.
  intros Hp Hn Hv. unfold reconcile_node. rewrite Hp, Hn, Hv.
  unfold bind, lift, ret, uuid4, utcnow, execute_ability, try_except,
    build_accounting_entries.
  cbn [vget fst snd]. rewrite !dget_dict_of.
  cbn [assoc List.find fst snd String.eqb Ascii.eqb Bool.eqb default from_option id vget].
  unfold bind, lift, ret, uuid4, utcnow. cbn [fst snd data].
  rewrite !dget_dict_of.
  cbn [assoc List.find fst snd String.eqb Ascii.eqb Bool.eqb default from_option id
       py_len length].
  do 4 eexists. split; [reflexivity |].
  rewrite !lookup_dict_of.
  cbn [assoc List.find fst snd String.eqb Ascii.eqb Bool.eqb].
  repeat split; reflexivity.
Qed.


(** ** Paths of a run *)

Lemma later_stages_nodes (g : StateGraph) :
  g = create_invoice_graph \/ g = resume_graph ->
  assoc "reconcile" (nodes g) = Some reconcile_node
  /\ assoc "approve" (nodes g) = Some approve_node
  /\ assoc "posting" (nodes g) = Some posting_node
  /\ assoc "notify" (nodes g) = Some notify_node
  /\ assoc "complete" (nodes g) = Some complete_node.
Proof. intros [-> | ->]; repeat split; reflexivity. Qed.

Lemma later_stages_edges (g : StateGraph) (state : dict) :
  g = create_invoice_graph \/ g = resume_graph ->
  next_target g "reconcile" state = Ok (ToNode "approve")
  /\ next_target g "approve" state = Ok (ToNode "posting")
  /\ next_target g "posting" state = Ok (ToNode "notify")
  /\ next_target g "notify" state = Ok (ToNode "complete")
  /\ next_target g "complete" state = Ok END.
Proof. intros [-> | ->]; repeat split; reflexivity. Qed.

(** One stage of a run that does not touch the trace: either the run ends
    with the exception of the stage, or it goes on from the merged state with
    the name of the stage appended to the trace. *)
Lemma run_stage (g : StateGraph) (fuel : nat) (current : string) (state : dict)
    (w : World) (stage : Node) :
  assoc current (nodes g) = Some stage ->
  keeps trace (stage state) ->
  (exists e w1, run g (S fuel) current state w = (Raise e, w1))
  \/ (exists update w1,
        trace w1 = (trace w ++ [current])%list
        /\ run g (S fuel) current state w
           = match next_target g current (apply_update state update) with
             | Raise e => (Raise e, w1)
             | Ok END => (Ok (apply_update state update), w1)
             | Ok (ToNode n) => run g fuel n (apply_update state update) w1
             end).
Proof.
  intros Hn Hk. rewrite (run_unfold g fuel current state w stage Hn).
  specialize (Hk (set_trace (trace w ++ [current])%list w)).
  destruct (stage state _) as [[update | e] w1]; cbn [snd] in Hk.
  - right. exists update, w1. split; [exact Hk | reflexivity].
  - left. by exists e, w1.
Qed.

(** A run of either graph that is at [reconcile] and returns has executed
    [reconcile], [approve], [posting], [notify] and [complete], in this order
    and once each, within its step budget. *)
Lemma later_stages_run (g : StateGraph) (fuel : nat) (state : dict) (w : World) :
  g = create_invoice_graph \/ g = resume_graph ->
  returns (fst (run g fuel "reconcile" state w)) = true ->
  trace (snd (run g fuel "reconcile" state w)) = (trace w ++ later_stages)%list
  /\ 5 <= fuel.
Proof.
  intros Hg. destruct (later_stages_nodes g Hg) as (N1 & N2 & N3 & N4 & N5).
  pose proof (fun st => later_stages_edges g st Hg) as E.
  pose proof (keeps_reconcile_node trace log_frame_trace) as K1.
  pose proof (keeps_approve_node trace log_frame_trace) as K2.
  pose proof (keeps_posting_node trace log_frame_trace) as K3.
  pose proof (keeps_notify_node trace log_frame_trace) as K4.
  pose proof (keeps_complete_node trace log_frame_trace) as K5.
  destruct fuel as [| f1]; [discriminate |].
  destruct (run_stage g f1 "reconcile" state w _ N1 (K1 state))
    as [(e & w1 & ->) | (u1 & w1 & T1 & ->)]; [discriminate |].
  rewrite (proj1 (E _)).
  destruct f1 as [| f2]; [discriminate |].
  destruct (run_stage g f2 "approve" (apply_update state u1) w1 _ N2 (K2 _))
    as [(e & w2 & ->) | (u2 & w2 & T2 & ->)]; [discriminate |].
  rewrite (proj1 (proj2 (E _))).
  destruct f2 as [| f3]; [discriminate |].
  destruct (run_stage g f3 "posting" (apply_update (apply_update state u1) u2) w2 _
              N3 (K3 _))
    as [(e & w3 & ->) | (u3 & w3 & T3 & ->)]; [discriminate |].
  rewrite (proj1 (proj2 (proj2 (E _)))).
  destruct f3 as [| f4]; [discriminate |].
  destruct (run_stage g f4 "notify"
              (apply_update (apply_update (apply_update state u1) u2) u3) w3 _
              N4 (K4 _))
    as [(e & w4 & ->) | (u4 & w4 & T4 & ->)]; [discriminate |].
  rewrite (proj1 (proj2 (proj2 (proj2 (E _))))).
  destruct f4 as [| f5]; [discriminate |].
  destruct (run_stage g f5 "complete"
              (apply_update (apply_update (apply_update (apply_update state u1) u2) u3) u4)
              w4 _ N5 (K5 _))
    as [(e & w5 & ->) | (u5 & w5 & T5 & ->)]; [discriminate |].
  rewrite (proj2 (proj2 (proj2 (proj2 (E _))))).
  intros _. cbn [snd]. split; [| lia].
  rewrite T5, T4, T3, T2, T1. unfold later_stages. by rewrite <- !app_assoc.
Qed.


Lemma keeps_trace_hitl_decision_node (state : dict) :
  keeps trace (hitl_decision_node state).
Proof.
  unfold hitl_decision_node, decide_checkpoint. keeps_tac.
  apply keeps_get_human_decision, log_frame_trace.
Qed.



(** One stage of a returning run: the budget is not exhausted, the stage
    returns, and the goal is restated after the stage. *)
Ltac run_step stage K :=
  match goal with
  | |- returns (fst (run ?g ?fuel ?n ?st ?w)) = true -> _ =>
      destruct fuel as [| fuel]; [discriminate |];
      let e := fresh "e" in
      let w1 := fresh "w" in
      let u := fresh "u" in
      let T := fresh "T" in
      destruct (run_stage g fuel n st w stage eq_refl (K st))
        as [(e & w1 & ->) | (u & w1 & T & ->)]; [discriminate |]
  end.


(** X13.  The paths of the resume graph.  A resumed run that returns has
    executed the decision stage and then either the five stages from
    [reconcile] to [complete] or [complete] alone; the step budget was at
    least the number of stages executed (six or two). *)
Theorem resume_graph_paths (limit : nat) (input : dict) (w : World) :
  returns (fst (ainvoke resume_graph limit input w)) = true ->
  (trace (snd (ainvoke resume_graph limit input w))
   = (trace w ++ ["hitl_decision"; "reconcile"; "approve"; "posting"; "notify";
                  "complete"])%list
   /\ 6 <= limit)
  \/ (trace (snd (ainvoke resume_graph limit input w))
      = (trace w ++ ["hitl_decision"; "complete"])%list
      /\ 2 <= limit).
Proof.
  unfold ainvoke. cbn [entry_point resume_graph]. rename limit into fuel.
  run_step hitl_decision_node keeps_trace_hitl_decision_node.
  assert (E : forall st : dict,
            next_target resume_graph "hitl_decision" st
            = Ok (ToNode (should_continue_after_hitl st))).
  { intros st. unfold next_target. simpl. unfold should_continue_after_hitl.
    destruct (eq_str (dget "human_decision" (VStr "") st) "ACCEPT"); reflexivity. }
  rewrite E. unfold should_continue_after_hitl.
  destruct (eq_str _ "ACCEPT").
  - intros R. left.
    destruct (later_stages_run resume_graph _ _ _ (or_intror eq_refl) R) as [P L].
    rewrite P. split; [| lia].
    repeat match goal with H : trace _ = _ |- _ => rewrite H; clear H end.
    unfold later_stages. by rewrite <- !app_assoc.
  - run_step complete_node (keeps_complete_node trace log_frame_trace).
    rewrite (proj2 (proj2 (proj2 (proj2 (later_stages_edges resume_graph _
                                           (or_intror eq_refl)))))).
    intros _. right. cbn [snd]. split; [| lia].
    repeat match goal with H : trace _ = _ |- _ => rewrite H; clear H end.
    by rewrite <- !app_assoc.
Qed.

End Workflow.

(** * Closed instances

    The theorems above at concrete inputs, with the sample environment. *)

Lemma select_within_allow_list_witness :
  select no_env "db" ∅ db_pool_hint None
    = Ok (Some (mkTool "sqlite" "db" "SQLite database" 1 true))
  /\ In (mkTool "sqlite" "db" "SQLite database" 1 true) (pools "db")
  /\ In "sqlite" db_pool_hint.
Proof.
  assert (H : select no_env "db" ∅ db_pool_hint None
              = Ok (Some (mkTool "sqlite" "db" "SQLite database" 1 true)))
    by reflexivity.
  destruct (select_within_allow_list no_env _ _ _ _ _ H) as (H1 & _ & _ & H4).
  split; [exact H |]. split; [exact H1 |]. apply H4. discriminate.
Defined.

Lemma select_precedence_witness :
  select no_env "email" ∅ email_pool_hint (Some "sendgrid")
    = Ok (Some (mkTool "sendgrid" "email" "SendGrid email service" 3 true))
  /\ select no_env "email" ∅ email_pool_hint None
    = Ok (Some (mkTool "ses" "email" "AWS SES email service" 2 true)).
Proof.
  split.
  - apply (proj1 (select_precedence no_env "email" ∅ email_pool_hint (Some "sendgrid") _)).
    reflexivity.
  - apply (proj2 (select_precedence no_env "email" ∅ email_pool_hint None _) "ses");
      reflexivity.
Defined.

Lemma select_fallback_highest_priority_witness :
  exists t : Tool,
    select no_env "db" ∅ ["postgres"; "dynamodb"] None = Ok (Some t)
    /\ In t (candidates "db" ["postgres"; "dynamodb"])
    /\ (forall t' : Tool,
          In t' (candidates "db" ["postgres"; "dynamodb"]) -> priority t' <= priority t).
Proof.
  apply (select_fallback_highest_priority no_env "db" ∅ ["postgres"; "dynamodb"] None);
    try reflexivity.
  - discriminate.
  - intros default_name [= <-]. reflexivity.
Defined.

Lemma select_high_value_erp_witness :
  select no_env "erp_connector" (dict_of [("amount", VNum 250000)])
         ["sap_sandbox"; "netsuite"] None
    = Ok (Some (mkTool "sap_sandbox" "erp_connector" "SAP sandbox connector" 3 true))
  /\ select no_env "erp_connector" (dict_of [("amount", VStr "250000")])
         ["sap_sandbox"; "netsuite"] None
    = Raise TypeError.
Proof.
  split.
  - apply (proj1 (select_high_value_erp no_env (dict_of [("amount", VNum 250000)])
                    ["sap_sandbox"; "netsuite"] (VNum 250000)
                    ltac:(discriminate) eq_refl eq_refl) 250000%Q);
      reflexivity.
  - apply (proj2 (select_high_value_erp no_env (dict_of [("amount", VStr "250000")])
                    ["sap_sandbox"; "netsuite"] (VStr "250000")
                    ltac:(discriminate) eq_refl eq_refl) TypeError).
    reflexivity.
Defined.

Lemma later_stages_keep_checkpoints_witness :
  checkpoints
    (snd (run (resume_graph sample_uuid sample_clock no_env sample_str)
              25 "reconcile" sample_state sample_world))
  = checkpoints sample_world.
Proof.
  apply (later_stages_keep_checkpoints sample_uuid sample_clock no_env no_env_float
           sample_str sample_stage sample_stage sample_stage sample_stage).
  - right. reflexivity.
  - simpl. tauto.
Defined.

Lemma approve_node_policy_witness :
  exists update : dict,
    fst (approve_node sample_clock sample_str sample_state sample_world) = Ok update
    /\ update !! "approval_status" = Some (VStr "ESCALATED")
    /\ update !! "approver_id" = Some (VStr "MGR-001")
    /\ next_target (resume_graph sample_uuid sample_clock no_env sample_str)
         "approve" (apply_update sample_state update)
       = Ok (ToNode "posting").
Proof.
  exact (approve_node_policy sample_uuid sample_clock no_env no_env_float sample_str
           sample_stage sample_stage sample_stage sample_stage
           sample_state sample_payload ∅ sample_world
           (resume_graph sample_uuid sample_clock no_env sample_str)
           eq_refl eq_refl (or_intror eq_refl)).
Defined.

Lemma posting_node_schedules_payment_witness :
  exists (update : dict) (n : nat),
    fst (posting_node sample_uuid sample_clock no_env
           (<["accounting_entries" := VNone]> sample_state) sample_world) = Ok update
    /\ update !! "scheduled_payment_id" = Some (VStr ("PAY-" ++ hex8 (sample_uuid n)))
    /\ update !! "posted" = Some (VBool false)
    /\ update !! "erp_txn_id" = Some VNone.
Proof.
  exact (posting_node_schedules_payment sample_uuid sample_clock no_env
           (<["accounting_entries" := VNone]> sample_state) sample_payload ∅
           sample_world
           (mkTool "mock_erp" "erp_connector" "Mock ERP for testing" 1 true)
           eq_refl eq_refl eq_refl).
Defined.

Lemma match_two_way_node_fail_safe_witness :
  exists update : dict,
    fst (match_two_way_node sample_clock no_env_float
           (<["matched_pos" := VList [VStr "PO-1"]]> sample_state) sample_world)
    = Ok update
    /\ update !! "match_result" = Some (VStr "FAILED")
    /\ update !! "match_score" = Some (VNum 0)
    /\ next_target (create_invoice_graph sample_uuid sample_clock no_env no_env_float
                      sample_str sample_stage sample_stage sample_stage sample_stage)
         "match_two_way"
         (apply_update (<["matched_pos" := VList [VStr "PO-1"]]> sample_state) update)
       = Ok (ToNode "checkpoint_hitl").
Proof.
  destruct (match_two_way_node_fail_safe sample_uuid sample_clock no_env no_env_float
              sample_str sample_stage sample_stage sample_stage sample_stage
              (<["matched_pos" := VList [VStr "PO-1"]]> sample_state)
              sample_payload (∅ : dict) sample_world 0.90 5)
    as (update & H1 & _ & _ & H4); [reflexivity | reflexivity | reflexivity | reflexivity |].
  exists update. split; [exact H1 |].
  apply (H4 AttributeError). reflexivity.
Defined.

Lemma notify_node_parties_witness :
  exists update : dict,
    fst (notify_node sample_clock no_env sample_str
           (<["notified_parties" := VList [VStr "Acme"; VStr "finance-team"]]> sample_state)
           sample_world) = Ok update
    /\ apply_update
         (<["notified_parties" := VList [VStr "Acme"; VStr "finance-team"]]> sample_state)
         update !! "notified_parties"
       = Some (VList [VStr "Acme"; VStr "finance-team"]).
Proof.
  destruct (notify_node_parties sample_clock no_env sample_str
              (<["notified_parties" := VList [VStr "Acme"; VStr "finance-team"]]> sample_state)
              sample_payload (∅ : dict) sample_world)
    as (update & t & H1 & _ & _ & _ & _ & H6); [reflexivity | reflexivity |].
  exists update. split; [exact H1 | exact H6].
Defined.

Lemma reconcile_node_balanced_witness :
  exists update payable expense report : dict,
    fst (reconcile_node sample_uuid sample_clock sample_str sample_state sample_world)
    = Ok update
    /\ update !! "accounting_entries" = Some (VList [VDict payable; VDict expense])
    /\ update !! "reconciliation_report" = Some (VDict report)
    /\ payable !! "credit" = Some (VNum 75000)
    /\ expense !! "debit" = Some (VNum 75000)
    /\ report !! "total_debit" = Some (VNum 75000)
    /\ report !! "total_credit" = Some (VNum 75000).
Proof.
  destruct (reconcile_node_balanced sample_uuid sample_clock sample_str
              sample_state sample_payload (∅ : dict) (∅ : dict) sample_world)
    as (update & payable & expense & report & H1 & H2 & H3 & _ & _ & H6 & _ & H8
        & _ & _ & H11 & H12 & _); [reflexivity | reflexivity | reflexivity |].
  exists update, payable, expense, report.
  repeat split; assumption.
Defined.


Lemma resume_graph_paths_witness :
  (trace (snd (ainvoke (resume_graph sample_uuid sample_clock no_env sample_str)
                 25 (<["human_decision" := VStr "REJECT"]> sample_state) sample_world))
   = ["hitl_decision"; "reconcile"; "approve"; "posting"; "notify"; "complete"]
   /\ 6 <= 25)
  \/ (trace (snd (ainvoke (resume_graph sample_uuid sample_clock no_env sample_str)
                    25 (<["human_decision" := VStr "REJECT"]> sample_state) sample_world))
      = ["hitl_decision"; "complete"]
      /\ 2 <= 25).
Proof.
  apply (resume_graph_paths sample_uuid sample_clock no_env no_env_float sample_str
           sample_stage sample_stage sample_stage sample_stage
           25 (<["human_decision" := VStr "REJECT"]> sample_state) sample_world).
  vm_compute. reflexivity.
Defined.
